(** * baudrate.py: the rate catalog, the text heuristic and the detection loop

    A shallow embedding of the class [Baudrate] of [baudrate.py]: the
    constructor, [Open], [NextBaudrate], the loop of [Detect] and the key
    listener [HandleKeypress] that [Detect] starts in manual mode.

    - Python integers are [Z]; readings of [time.time()] are [Z] ticks of
      the clock (they only enter a subtraction and two comparisons).
    - Python values that the code compares with [==] / [in] are [pyval]:
      [None], a [bytes] object or a [str]. The channel delivers [bytes];
      the character lists of the class hold [str].
    - [self] is the record [Baudrate]; the locals of [Detect] are the
      record [locals]; the statement [Detect] is about to run is a [point].
    - The serial channel is the log of the operations performed on it.
    - The main thread and the listener thread interleave: a run is a list
      of [event]s, each one step of one of the two threads.
    - Writes to [sys.stderr] (the rate banner, the verbose echo) are not
      modelled: nothing reads them back. *)

From Stdlib Require Import ZArith List String Ascii Bool Lia DecimalString Sorted.
From Stdlib Require Import Strings.Byte.
Import ListNotations.

Local Open Scope string_scope.
Local Open Scope list_scope.
Local Open Scope Z_scope.

(** ** Python values *)

(** A [bytes] object: what [serial.Serial.read] returns under Python 3,
    and what [_print] hands to [sys.stderr.buffer.write]. *)
Definition bytes := list byte.

Inductive pyval : Type :=
| PyNone
| PyBytes (b : bytes)
| PyStr (s : string).

Fixpoint bytes_eqb (a b : bytes) : bool :=
  match a, b with
  | [], [] => true
  | x :: a', y :: b' => Byte.eqb x y && bytes_eqb a' b'
  | _, _ => false
  end.

(** Python 3's [==]: a [bytes] object never equals a [str], whatever they
    hold; [None] equals only [None]. *)
Definition py_eq (x y : pyval) : bool :=
  match x, y with
  | PyNone, PyNone => true
  | PyBytes a, PyBytes b => bytes_eqb a b
  | PyStr s, PyStr t => String.eqb s t
  | _, _ => false
  end.

(** [x in l] for a list [l] of [str]: some element is [==] to [x]. *)
Definition py_in (x : pyval) (l : list string) : bool :=
  existsb (fun s => py_eq x (PyStr s)) l.

(** Truth value of an object in [if x:]. *)
Definition truthy (x : pyval) : bool :=
  match x with
  | PyNone => false
  | PyBytes [] => false
  | PyBytes (_ :: _) => true
  | PyStr EmptyString => false
  | PyStr (String _ _) => true
  end.

(** [l[i]]: a negative index counts from the end; out of range is
    [IndexError], here [None]. *)
Definition py_getitem {A : Type} (l : list A) (i : Z) : option A :=
  let n := Z.of_nat (List.length l) in
  if (0 <=? i) && (i <? n) then nth_error l (Z.to_nat i)
  else if (- n <=? i) && (i <? 0) then nth_error l (Z.to_nat (n + i))
  else None.

Definition ord (c : ascii) : nat := nat_of_ascii c.
Definition chr (n : nat) : string := String (ascii_of_nat n) EmptyString.
(** [range(a, b)] *)
Definition range (a b : nat) : list nat := seq a (b - a).

(** ** Class constants *)

Definition READ_TIMEOUT : Z := 5.

Definition BAUDRATES : list string :=
  [ "110"; "300"; "600"; "1200"; "1800"; "2400"; "3600"; "4800"; "7200";
    "9600"; "14400"; "19200"; "28800"; "31250"; "38400"; "57600"; "76800";
    "115200"; "128000"; "153600"; "230400"; "250000"; "256000"; "307200";
    "345600"; "460800"; "500000"; "512000"; "921600"; "1024000"; "2000000";
    "2500000"; "3000000"; "3686400" ].

Definition UPKEYS : list string := ["u"; "U"; "A"].
Definition DOWNKEYS : list string := ["d"; "D"; "B"].

Definition MIN_CHAR_COUNT : Z := 25.
(** [' ', '\t', '\r', '\n'] *)
Definition WHITESPACE : list string :=
  [" "; String "009" EmptyString; String "013" EmptyString;
   String "010" EmptyString].
Definition PUNCTUATION : list string := ["."; ","; ":"; ";"; "?"; "!"].
Definition VOWELS : list string :=
  ["a"; "A"; "e"; "E"; "i"; "I"; "o"; "O"; "u"; "U"].

(** [len(self.BAUDRATES)] *)
Definition len_BAUDRATES : Z := Z.of_nat (List.length BAUDRATES).

(** ** The object *)

(** What was done to [self.serial], oldest first. *)
Inductive serial_op : Type :=
| SerialOpen (port : string) (timeout : Z)
| Flush
| SetBaudrate (rate : string).

Record Baudrate : Type := mkBaudrate {
  port : string;
  threshold : Z;
  timeout : Z;
  name : option string;
  auto_detect : bool;
  verbose : bool;
  index : Z;
  valid_characters : list string;
  ctlc : bool;
  (** [self.thread] is a started [Thread] ([None] otherwise) *)
  thread : bool;
  serial : list serial_op
}.

Definition set_index (self : Baudrate) (i : Z) : Baudrate :=
  mkBaudrate (port self) (threshold self) (timeout self) (name self)
    (auto_detect self) (verbose self) i (valid_characters self) (ctlc self)
    (thread self) (serial self).

Definition set_valid_characters (self : Baudrate) (l : list string) : Baudrate :=
  mkBaudrate (port self) (threshold self) (timeout self) (name self)
    (auto_detect self) (verbose self) (index self) l (ctlc self)
    (thread self) (serial self).

Definition set_ctlc (self : Baudrate) (b : bool) : Baudrate :=
  mkBaudrate (port self) (threshold self) (timeout self) (name self)
    (auto_detect self) (verbose self) (index self) (valid_characters self) b
    (thread self) (serial self).

Definition set_thread (self : Baudrate) (b : bool) : Baudrate :=
  mkBaudrate (port self) (threshold self) (timeout self) (name self)
    (auto_detect self) (verbose self) (index self) (valid_characters self)
    (ctlc self) b (serial self).

Definition set_serial (self : Baudrate) (l : list serial_op) : Baudrate :=
  mkBaudrate (port self) (threshold self) (timeout self) (name self)
    (auto_detect self) (verbose self) (index self) (valid_characters self)
    (ctlc self) (thread self) l.

(** [_gen_char_list]: the printable characters ['!'] .. ['~'], then the
    whitespace characters. *)
Definition _gen_char_list (self : Baudrate) : Baudrate :=
  let self := set_valid_characters self
                (map chr (range (ord "!") (ord "~" + 1))) in
  set_valid_characters self (valid_characters self ++ WHITESPACE).

(** [__init__] *)
Definition __init__ (port : string) (threshold timeout : Z) (name : option string)
    (auto verbose : bool) : Baudrate :=
  _gen_char_list
    (mkBaudrate port threshold timeout name auto verbose
       (len_BAUDRATES - 1) [] false false []).

(** The cursor arithmetic of [NextBaudrate] on a catalog of [n] rates:
    add, then wrap an overflow to [0] and an underflow to [n - 1]. *)
Definition advance (n i updn : Z) : Z :=
  let i := i + updn in
  if i >=? n then 0
  else if i <? 0 then n - 1
  else i.

(** [NextBaudrate] on an opened object: lines 147-149 use [self.serial],
    which [Open] sets. [None] is the [IndexError] of
    [self.BAUDRATES[self.index]]. *)
Definition NextBaudrate (updn : Z) (self : Baudrate) : option Baudrate :=
  let self := set_index self (advance len_BAUDRATES (index self) updn) in
  match py_getitem BAUDRATES (index self) with
  | Some rate =>
      Some (set_serial self (serial self ++ [Flush; SetBaudrate rate; Flush]))
  | None => None
  end.

(** [Open] *)
Definition Open (self : Baudrate) : option Baudrate :=
  let self := set_serial self
                (serial self ++ [SerialOpen (port self) (timeout self)]) in
  NextBaudrate 0 self.

(** ** The locals of [Detect] *)

Record locals : Type := mkLocals {
  count : Z;
  whitespace : Z;
  punctuation : Z;
  vowels : Z;
  start_time : Z;
  timed_out : bool;
  clear_counters : bool
}.

(** Lines 171-181: the byte just read is counted or marks the counters
    for clearing. *)
Definition classify (self : Baudrate) (byte : pyval) (l : locals) : locals :=
  if auto_detect self && py_in byte (valid_characters self) then
    let '(w, p, v) :=
      if py_in byte WHITESPACE then
        (whitespace l + 1, punctuation l, vowels l)
      else if py_in byte PUNCTUATION then
        (whitespace l, punctuation l + 1, vowels l)
      else if py_in byte VOWELS then
        (whitespace l, punctuation l, vowels l + 1)
      else (whitespace l, punctuation l, vowels l) in
    mkLocals (count l + 1) w p v (start_time l) (timed_out l)
      (clear_counters l)
  else
    mkLocals (count l) (whitespace l) (punctuation l) (vowels l)
      (start_time l) (timed_out l) true.

(** Line 185: the test that ends the loop with a detection. *)
Definition detection_satisfied (self : Baudrate) (l : locals) : bool :=
  (count l >=? threshold self) && (whitespace l >? 0)
  && (punctuation l >? 0) && (vowels l >? 0).

(** ** The loop of [Detect], statement by statement *)

(** Which [break] left the loop. *)
Inductive exit : Type := Detected | Cancelled.

Inductive point : Type :=
| AtRead                              (* lines 165-168 *)
| AtByte (byte : pyval)               (* lines 170-190 *)
| AtSwitch                            (* lines 192-196 *)
| AtClear                             (* lines 198-203 *)
| AtCancel                            (* lines 205-206 *)
| AtReturn (how : exit)               (* line 208 *)
| Returned (how : exit) (value : pyval)
| Raised.

Record state : Type := mkState {
  obj : Baudrate;
  frame : locals;
  pc : point
}.

(** Lines 152-162: the locals start at zero; manual mode starts the
    listener thread. *)
Definition Detect_enter (self : Baudrate) : state :=
  mkState (if negb (auto_detect self) then set_thread self true else self)
    (mkLocals 0 0 0 0 0 false false) AtRead.

(** One step of the main thread. [now] is what [time.time()] returns if
    the step calls it, [rd] what [self.serial.read(1)] returns if the step
    calls it. Line 183, [self._print(byte)], is left out: with [verbose]
    off it does nothing, and with [verbose] on it copies a [bytes] read to
    standard error; a [str] read makes that write raise [TypeError], so
    with [verbose] on the step is that of the code for [bytes] reads
    only. *)
Definition Detect_step (now : Z) (rd : pyval) (s : state) : state :=
  let self := obj s in
  let l := frame s in
  match pc s with
  | AtRead =>
      let l := if start_time l =? 0
               then mkLocals (count l) (whitespace l) (punctuation l)
                      (vowels l) now (timed_out l) (clear_counters l)
               else l in
      mkState self l (AtByte rd)
  | AtByte byte =>
      if truthy byte then
        let l := classify self byte l in
        if detection_satisfied self l then mkState self l (AtReturn Detected)
        else if now - start_time l >=? timeout self then
          mkState self
            (mkLocals (count l) (whitespace l) (punctuation l) (vowels l)
               (start_time l) true (clear_counters l))
            AtSwitch
        else mkState self l AtSwitch
      else
        mkState self
          (mkLocals (count l) (whitespace l) (punctuation l) (vowels l)
             (start_time l) true (clear_counters l))
          AtSwitch
  | AtSwitch =>
      if timed_out l && auto_detect self then
        match NextBaudrate (-1) self with
        | Some self' =>
            mkState self'
              (mkLocals (count l) (whitespace l) (punctuation l) (vowels l)
                 0 false true)
              AtClear
        | None => mkState self l Raised
        end
      else mkState self l AtClear
  | AtClear =>
      if clear_counters l then
        mkState self (mkLocals 0 0 0 0 (start_time l) (timed_out l) false)
          AtCancel
      else mkState self l AtCancel
  | AtCancel =>
      if ctlc self then mkState self l (AtReturn Cancelled)
      else mkState self l AtRead
  | AtReturn how =>
      match py_getitem BAUDRATES (index self) with
      | Some rate => mkState self l (Returned how (PyStr rate))
      | None => mkState self l Raised
      end
  | Returned _ _ => s
  | Raised => s
  end.

(** ** The listener thread *)

(** Lines 213-219: what [HandleKeypress] does with one key. *)
Definition HandleKeypress_key (c : string) (self : Baudrate) : option Baudrate :=
  if py_in (PyStr c) UPKEYS then NextBaudrate 1 self
  else if py_in (PyStr c) DOWNKEYS then NextBaudrate (-1) self
  else if py_eq (PyStr c) (PyStr (String "003" EmptyString))
       then Some (set_ctlc self true)
  else Some self.

(** One pass of [while not self.ctlc:] in the listener, if [Detect]
    started it. An exception would end the listener and leave the main
    thread as it is. *)
Definition HandleKeypress_step (c : string) (s : state) : state :=
  if thread (obj s) && negb (ctlc (obj s)) then
    match HandleKeypress_key c (obj s) with
    | Some self' => mkState self' (frame s) (pc s)
    | None => mkState (set_thread (obj s) false) (frame s) (pc s)
    end
  else s.

(** ** Runs *)

Inductive event : Type :=
| Main (now : Z) (rd : pyval)   (* the main thread runs its next statement *)
| Key (c : string).             (* the listener reads the key [c] *)

Definition step (s : state) (e : event) : state :=
  match e with
  | Main now rd => Detect_step now rd s
  | Key c => HandleKeypress_step c s
  end.

Definition run (evs : list event) (s : state) : state := fold_left step evs s.

(** [with Baudrate(...) as baud: baud.Detect()] up to the first statement
    of the loop. *)
Definition start (port : string) (threshold timeout : Z) (name : option string)
    (auto verbose : bool) : option state :=
  option_map Detect_enter (Open (__init__ port threshold timeout name auto verbose)).


(** [self.Detect()] while the two threads take the steps [evs]: [Detect]
    has returned when [pc] is [Returned]. *)
Definition Detect (self : Baudrate) (evs : list event) : state :=
  run evs (Detect_enter self).

(** [with Baudrate(...) as baud: baud.Detect()]: the state the events
    [evs] lead to; [None] if [Open] raised. *)
Definition after (port : string) (threshold timeout : Z) (name : option string)
    (auto verbose : bool) (evs : list event) : option state :=
  option_map (fun self => Detect self evs)
    (Open (__init__ port threshold timeout name auto verbose)).

(** [k] calls of [NextBaudrate(updn)] in a row. *)
Fixpoint NextBaudrate_times (k : nat) (updn : Z) (self : Baudrate)
    : option Baudrate :=
  match k with
  | O => Some self
  | S k' =>
      match NextBaudrate updn self with
      | Some self' => NextBaudrate_times k' updn self'
      | None => None
      end
  end.

(** The number a rate string denotes ([int(rate)]). *)
Definition int_of_str (s : string) : option Z :=
  option_map Z.of_uint (NilEmpty.uint_of_string s).

(** ** Vocabulary of the properties *)

(** The step [e] taken from [s] classifies a byte: the main thread runs
    line 171 on a non-empty read. *)
Definition classifies (s : state) (e : event) : bool :=
  match e, pc s with
  | Main _ _, AtByte byte => truthy byte
  | _, _ => false
  end.

(** No step of [evs], taken from [s] on, classifies a byte. *)
Fixpoint none_classified (evs : list event) (s : state) : bool :=
  match evs with
  | [] => true
  | e :: evs' => negb (classifies s e) && none_classified evs' (step s e)
  end.

(** How many steps of the main thread [evs] holds. *)
Fixpoint main_steps (evs : list event) : nat :=
  match evs with
  | [] => O
  | Main _ _ :: evs' => S (main_steps evs')
  | Key _ :: evs' => main_steps evs'
  end.

(** The specification's accepted character set, on byte values: printable
    ASCII 0x21-0x7E, space, tab, CR, LF. *)
Definition AcceptedCharacterSet (b : byte) : bool :=
  let n := Byte.to_N b in
  (((0x21 <=? n) && (n <=? 0x7e)) || (n =? 0x20) || (n =? 0x09)
   || (n =? 0x0d) || (n =? 0x0a))%N.

(** The accepted set on characters, as [AcceptedCharacterSet] has it on
    bytes. *)
Definition accepted_char (c : ascii) : bool :=
  let n := N_of_ascii c in
  (((0x21 <=? n) && (n <=? 0x7e)) || (n =? 0x20) || (n =? 0x09)
   || (n =? 0x0d) || (n =? 0x0a))%N.

(** The read returned one byte, or one character, of the accepted set. *)
Definition accepted (x : pyval) : bool :=
  match x with
  | PyBytes [b] => AcceptedCharacterSet b
  | PyStr (String c EmptyString) => accepted_char c
  | _ => false
  end.

(** The number of accepted bytes received since the last counter clear,
    along the steps [evs] taken from [s] on, [acc] of them being there
    already: a byte is received where line 171 classifies it, and the
    counters are cleared where line 198 finds [clear_counters] set. *)
Fixpoint accepted_since_clear (evs : list event) (s : state) (acc : Z) : Z :=
  match evs with
  | [] => acc
  | e :: evs' =>
      accepted_since_clear evs' (step s e)
        match e, pc s with
        | Main _ _, AtByte byte =>
            if truthy byte && accepted byte then acc + 1 else acc
        | Main _ _, AtClear => if clear_counters (frame s) then 0 else acc
        | _, _ => acc
        end
  end.

(** The main thread's steps for reads that all return [rd], one step per
    clock reading of [ts]. *)
Definition reading (rd : pyval) (ts : list Z) : list event :=
  map (fun now => Main now rd) ts.

(** ** Keys of a run *)

(** The interrupt character ['\x03']. *)
Definition interrupt_key : string := String "003" EmptyString.

(** Some key of [evs] is the interrupt character. *)
Fixpoint interrupt_pressed (evs : list event) : bool :=
  match evs with
  | [] => false
  | Main _ _ :: evs' => interrupt_pressed evs'
  | Key c :: evs' => String.eqb c interrupt_key || interrupt_pressed evs'
  end.

(** Up keys minus down keys among the keys of [evs] that come before the
    first interrupt character. *)
Fixpoint keys_net (evs : list event) : Z :=
  match evs with
  | [] => 0
  | Main _ _ :: evs' => keys_net evs'
  | Key c :: evs' =>
      if py_in (PyStr c) UPKEYS then 1 + keys_net evs'
      else if py_in (PyStr c) DOWNKEYS then -1 + keys_net evs'
      else if String.eqb c interrupt_key then 0
      else keys_net evs'
  end.

(** The keys of [evs], the steps of the main thread left out. *)
Fixpoint keys_only (evs : list event) : list event :=
  match evs with
  | [] => []
  | Main _ _ :: evs' => keys_only evs'
  | Key c :: evs' => Key c :: keys_only evs'
  end.

(** The steps of the main thread in [evs], the keys left out. *)
Fixpoint main_only (evs : list event) : list event :=
  match evs with
  | [] => []
  | Main now rd :: evs' => Main now rd :: main_only evs'
  | Key _ :: evs' => main_only evs'
  end.

(** ** [MinicomConfig] *)

(** The newline character and the double quote character. *)
Definition nl : string := String "010" EmptyString.
Definition dquote : string := String "034" EmptyString.

(** What the program does to the world around it, in order. [Stdout] is
    the text one [print] call writes, its [end] included; [raised] is the
    [str()] of the exception a call raised, if it raised one. *)
Inductive effect : Type :=
| Stdout (text : string)
| Stdin (line : string)
| FileWrite (path content : string) (raised : option string)
| Spawn (argv : list string) (raised : option string)
| SerialClose.

(** [open(path, "w").write(content)] as the file system answers it:
    [None] when the text was written, [Some msg] when it raised. *)
Definition filesystem : Type := string -> string -> option string.

Definition hashes : string :=
  "########################################################################".

(** Lines 227-235: the text of the configuration. *)
Definition minicom_config (port rate : string) : string :=
  hashes ++ nl
  ++ "# Minicom configuration file - use " ++ dquote ++ "minicom -s" ++ dquote
  ++ " to change parameters." ++ nl
  ++ "pu port             " ++ port ++ nl
  ++ "pu baudrate         " ++ rate ++ nl
  ++ "pu bits             8" ++ nl
  ++ "pu parity           N" ++ nl
  ++ "pu stopbits         1" ++ nl
  ++ "pu rtscts           No" ++ nl
  ++ hashes ++ nl.

(** [MinicomConfig(name)]: the pair [(success, config)] it returns and
    what it did; [None] is the [IndexError] of
    [self.BAUDRATES[self.index]]. *)
Definition MinicomConfig (nm : option string) (fs : filesystem)
    (self : Baudrate) : option (bool * string * list effect) :=
  let nm := match nm with None => name self | Some n => Some n end in
  match py_getitem BAUDRATES (index self) with
  | None => None
  | Some rate =>
      let config := minicom_config (port self) rate in
      match nm with
      | Some n =>
          if truthy (PyStr n) then
            let path := ("/etc/minicom/minirc." ++ n)%string in
            match fs path config with
            | None => Some (true, config, [FileWrite path config None])
            | Some msg =>
                Some (false, config,
                      [FileWrite path config (Some msg);
                       Stdout ("Error saving minicom config file: " ++ msg
                               ++ nl)])
            end
          else Some (true, config, [])
      | None => Some (true, config, [])
      end
  end.

(** ** The command line: [main] *)

(** [str.isspace] on the code points below 256. *)
Definition isspace (c : ascii) : bool :=
  let n := nat_of_ascii c in
  ((9 <=? n) && (n <=? 13) || (28 <=? n) && (n <=? 32) || (n =? 133)
   || (n =? 160))%nat.

Fixpoint lstrip (s : string) : string :=
  match s with
  | EmptyString => EmptyString
  | String c s' => if isspace c then lstrip s' else s
  end.

Fixpoint rstrip (s : string) : string :=
  match s with
  | EmptyString => EmptyString
  | String c s' =>
      match rstrip s' with
      | EmptyString => if isspace c then EmptyString else String c EmptyString
      | r => String c r
      end
  end.

(** [s.strip()] *)
Definition strip (s : string) : string := rstrip (lstrip s).

(** [str.lower] on the code points below 256: the ASCII capitals and the
    Latin-1 capitals 0xC0-0xDE, 0xD7 apart. *)
Definition lower_char (c : ascii) : ascii :=
  let n := nat_of_ascii c in
  if ((65 <=? n) && (n <=? 90)
      || (192 <=? n) && (n <=? 222) && negb (n =? 215))%nat
  then ascii_of_nat (n + 32) else c.

Fixpoint lower (s : string) : string :=
  match s with
  | EmptyString => EmptyString
  | String c s' => String (lower_char c) (lower s')
  end.

(** [s.startswith(p)] *)
Definition startswith (s p : string) : bool := String.prefix p s.

(** [sys.stdin.readline()]: the next line, the empty string at end of
    file. *)
Definition readline (lines : list string) : string * list string :=
  match lines with
  | [] => (EmptyString, [])
  | l :: ls => (l, ls)
  end.

(** What [parse_args()] returns. [args.timeout] is left out: it is
    [READ_TIMEOUT] unless [-t] is given, and with [-t] it is a [str], a
    case this model does not cover. *)
Record Namespace : Type := mkNamespace {
  args_port : string;
  args_count : Z;
  args_name : option string;
  args_auto : bool;
  args_baud_rates : bool;
  args_quiet : bool
}.

(** What [main] meets: the steps the two threads take while [Detect]
    runs, the lines of standard input, the file system, and what
    [subprocess.call(["minicom", name])] raises. The port opens, and no
    [KeyboardInterrupt] arrives. *)
Record World : Type := mkWorld {
  schedule : list event;
  stdin_lines : list string;
  fs : filesystem;
  minicom : string -> option string
}.

(** Lines 299-316, after [Detect] has returned. *)
Definition save_and_run (baud : Baudrate) (name0 : option string)
    (run0 : bool) (w : World) : list effect :=
  let '(name, lines, asked) :=
    match name0 with
    | None =>
        let '(l, ls) := readline (stdin_lines w) in
        (strip l, ls,
         [Stdout (nl ++ "Save minicom configuration as: " ++ " "); Stdin l;
          Stdout nl])
    | Some n => (n, stdin_lines w, [])
    end in
  match MinicomConfig (Some name) (fs w) baud with
  | None => asked ++ [Stdout ("Exception: list index out of range" ++ nl)]
  | Some (ok, config, saved) =>
      if truthy (PyStr name) && ok then
        let '(run, confirmed) :=
          if negb run0 then
            let '(l, _) := readline lines in
            let yn := strip l in
            (String.eqb yn EmptyString || startswith (lower yn) "y" || run0,
             [Stdout "Configuration saved. Run minicom now [n/Y]? "; Stdin l;
              Stdout nl])
          else (run0, []) in
        asked ++ saved ++ confirmed
        ++ (if run then
              Spawn ["minicom"; name] (minicom w name)
              :: match minicom w name with
                 | Some msg => [Stdout ("Exception: " ++ msg ++ nl)]
                 | None => []
                 end
            else [])
      else asked ++ saved ++ [Stdout (config ++ nl)]
  end.

(** [main()] after [parse_args()]; [None] while [Detect] has not
    returned. *)
Definition main (args : Namespace) (w : World) : option (list effect) :=
  if args_baud_rates args then
    Some ([Stdout ("Supported baud rates:" ++ nl)]
          ++ map (fun rate => Stdout (rate ++ nl ++ nl)) BAUDRATES
          ++ [Stdout nl])
  else
    let '(run, auto) :=
      match args_name args with
      | Some _ => (true, true)
      | None => (false, args_auto args)
      end in
    match Open (__init__ (args_port args) (args_count args) READ_TIMEOUT
                  (args_name args) auto (args_quiet args)) with
    | None => None
    | Some baud =>
        let s := Detect baud (schedule w) in
        match pc s with
        | Returned _ (PyStr rate) =>
            Some ([Stdout (nl ++ "Starting baudrate detection on "
                           ++ args_port args
                           ++ ", turn on your serial device now." ++ nl
                           ++ "Press Up/Down to switch baud rates." ++ nl
                           ++ "Press Ctl+C to quit." ++ nl ++ nl);
                   Stdout (nl ++ "Detected baudrate: " ++ rate ++ nl)]
                  ++ save_and_run (obj s) (args_name args) run w
                  ++ [SerialClose])
        | _ => None
        end
    end.

(** A step whose read, if the main thread takes it, is a [bytes]
    object. *)
Definition bytes_read (e : event) : Prop :=
  match e with
  | Main _ rd => exists b, rd = PyBytes b
  | Key _ => True
  end.

(** ** What runs keep true: the notions the proofs use *)

(** In automatic mode [timed_out] is only set between the statement that
    sets it and line 192, which resets it. *)
Definition timed_out_reset (s : state) : Prop :=
  auto_detect (obj s) = true ->
  match pc s with
  | AtRead | AtByte _ | AtClear | AtCancel => timed_out (frame s) = false
  | _ => True
  end.

(** The rates of the catalog as numbers, in the catalog's order. *)
Definition BAUDRATES_values : list Z :=
  [ 110; 300; 600; 1200; 1800; 2400; 3600; 4800; 7200; 9600; 14400; 19200;
    28800; 31250; 38400; 57600; 76800; 115200; 128000; 153600; 230400;
    250000; 256000; 307200; 345600; 460800; 500000; 512000; 921600; 1024000;
    2000000; 2500000; 3000000; 3686400 ].

(** The states in which [count] is the number [acc] of accepted characters
    since the last clear, while every non-empty read is a [str]. *)
Definition counting_str (acc : Z) (s : state) : Prop :=
  auto_detect (obj s) = true
  /\ valid_characters (obj s)
     = map chr (range (ord "!") (ord "~" + 1)) ++ WHITESPACE
  /\ count (frame s) = acc
  /\ match pc s with
     | AtByte byte => truthy byte = true -> exists str, byte = PyStr str
     | _ => True
     end.

(** A step whose read, if it is not empty, is a [str]. *)
Definition str_read (e : event) : Prop :=
  match e with
  | Main _ rd => truthy rd = true -> exists str, rd = PyStr str
  | Key _ => True
  end.

(** [self.serial] is set: [Open] ran line 133 on the object. *)
Definition opened (self : Baudrate) : bool :=
  existsb (fun op => match op with SerialOpen _ _ => true | _ => false end)
    (serial self).

Definition zero4 (l : locals) : Prop :=
  count l = 0 /\ whitespace l = 0 /\ punctuation l = 0 /\ vowels l = 0.

(** What the statement about to run tells about the state: inside the
    loop the detection test is false (or the loop would have been left);
    after a [break] the test that took it was true; the value returned is
    a rate of the catalog; no [IndexError] was raised. *)
Definition pc_ok (s : state) : Prop :=
  match pc s with
  | AtReturn Detected => detection_satisfied (obj s) (frame s) = true
  | AtReturn Cancelled => ctlc (obj s) = true
  | Returned Detected v =>
      detection_satisfied (obj s) (frame s) = true
      /\ exists r, v = PyStr r
                   /\ py_getitem BAUDRATES (index (obj s)) = Some r
  | Returned Cancelled v =>
      ctlc (obj s) = true
      /\ exists r, v = PyStr r
                   /\ py_getitem BAUDRATES (index (obj s)) = Some r
  | Raised => False
  | _ => detection_satisfied (obj s) (frame s) = false
  end.

Record Inv (s : state) : Prop := mkInv {
  inv_index : 0 <= index (obj s) < len_BAUDRATES;
  inv_thread : thread (obj s) = negb (auto_detect (obj s));
  inv_manual : auto_detect (obj s) = false -> zero4 (frame s);
  inv_ctlc : ctlc (obj s) = true -> auto_detect (obj s) = false;
  inv_chars :
    valid_characters (obj s) =
    map chr (range (ord "!") (ord "~" + 1)) ++ WHITESPACE;
  inv_serial :
    exists pre rate,
      serial (obj s) = pre ++ [Flush; SetBaudrate rate; Flush]
      /\ py_getitem BAUDRATES (index (obj s)) = Some rate;
  inv_pc : pc_ok s
}.

(** While no whitespace character is read, the whitespace counter stays
    at zero and [Detect] does not end with a detection. *)
Definition no_whitespace_seen (s : state) : Prop :=
  whitespace (frame s) = 0
  /\ match pc s with
     | AtByte byte => py_in byte WHITESPACE = false
     | AtReturn Detected | Returned Detected _ => False
     | _ => True
     end.

(** The states reached while every read is a [bytes] object. *)
Definition only_bytes_seen (s : state) : Prop :=
  zero4 (frame s)
  /\ match pc s with
     | AtByte byte => exists b, byte = PyBytes b
     | AtReturn Detected | Returned Detected _ => False
     | _ => True
     end.

(** The counters are zero, or the next statement is the one that clears
    them and they are marked for it. *)
Definition cleared_or_clearing (s : state) : Prop :=
  zero4 (frame s) \/ (pc s = AtClear /\ clear_counters (frame s) = true).

(** How many statements of the main thread remain before [Detect] has
    returned, once the flag is set. *)
Definition statements_left (p : point) : nat :=
  match p with
  | AtRead => 6
  | AtByte _ => 5
  | AtSwitch => 4
  | AtClear => 3
  | AtCancel => 2
  | AtReturn _ => 1
  | Returned _ _ => 0
  | Raised => 0
  end.

(** The states of a run after the flag was set, the cursor being [i0] and
    the rate there [r0]. *)
Definition cancelling (i0 : Z) (r0 : string) (s : state) : Prop :=
  ctlc (obj s) = true
  /\ auto_detect (obj s) = false
  /\ zero4 (frame s)
  /\ index (obj s) = i0
  /\ match pc s with
     | AtReturn how => how = Cancelled
     | Returned how v => how = Cancelled /\ v = PyStr r0
     | Raised => False
     | _ => True
     end.

(** ** Facts about the catalog and the cursor *)

Lemma len_BAUDRATES_eq : len_BAUDRATES = 34.
Proof. reflexivity. Qed.

Lemma py_getitem_in_range (A : Type) (l : list A) (i : Z) :
  0 <= i < Z.of_nat (List.length l) ->
  exists x, py_getitem l i = Some x /\ In x l.
Proof.
  intros Hi. unfold py_getitem.
  replace ((0 <=? i) && (i <? Z.of_nat (List.length l))) with true
    by (symmetry; apply andb_true_iff; split;
        [apply Z.leb_le | apply Z.ltb_lt]; lia).
  destruct (nth_error l (Z.to_nat i)) as [x|] eqn:E.
  - exists x. split; [reflexivity | eapply nth_error_In; eassumption].
  - apply nth_error_None in E. lia.
Qed.

(** Boolean comparisons in the hypotheses, read as propositions. *)
Ltac zbool :=
  repeat match goal with
  | H : (_ >=? _) = true |- _ => apply Z.geb_le in H
  | H : (_ >=? _) = false |- _ => rewrite Z.geb_leb in H; apply Z.leb_gt in H
  | H : (_ >? _) = true |- _ => apply Z.gtb_lt in H
  | H : (_ >? _) = false |- _ => rewrite Z.gtb_ltb in H; apply Z.ltb_ge in H
  | H : (_ <? _) = true |- _ => apply Z.ltb_lt in H
  | H : (_ <? _) = false |- _ => apply Z.ltb_ge in H
  | H : (_ <=? _) = true |- _ => apply Z.leb_le in H
  | H : (_ <=? _) = false |- _ => apply Z.leb_gt in H
  | H : (_ =? _) = true |- _ => apply Z.eqb_eq in H
  | H : (_ =? _) = false |- _ => apply Z.eqb_neq in H
  end.

Section Cursor.
Variable n : Z.
Hypothesis n_pos : 0 < n.

Lemma advance_in_range (i updn : Z) : 0 <= advance n i updn < n.
Proof.
  unfold advance.
  destruct (i + updn >=? n) eqn:E1; [lia|].
  destruct (i + updn <? 0) eqn:E2; [lia|].
  zbool. lia.
Qed.

Lemma advance_up (i : Z) :
  0 <= i < n -> advance n i 1 = (i + 1) mod n.
Proof.
  intros Hi. unfold advance.
  destruct (i + 1 >=? n) eqn:E1.
  - zbool. replace (i + 1) with n by lia.
    now rewrite Z.mod_same by lia.
  - destruct (i + 1 <? 0) eqn:E2; zbool; [lia|].
    now rewrite Z.mod_small by lia.
Qed.

Lemma advance_down (i : Z) :
  0 <= i < n -> advance n i (-1) = (i - 1) mod n.
Proof.
  intros Hi. unfold advance.
  destruct (i + -1 >=? n) eqn:E1; zbool; [lia|].
  destruct (i + -1 <? 0) eqn:E2; zbool.
  - replace (i - 1) with (n - 1 + (-1) * n) by lia.
    rewrite Z.mod_add by lia. now rewrite Z.mod_small by lia.
  - replace (i + -1) with (i - 1) by lia.
    now rewrite Z.mod_small by lia.
Qed.

Lemma advance_zero (i : Z) : 0 <= i < n -> advance n i 0 = i.
Proof.
  intros Hi. unfold advance. rewrite Z.add_0_r.
  destruct (i >=? n) eqn:E1; zbool; [lia|].
  destruct (i <? 0) eqn:E2; zbool; [lia|]. reflexivity.
Qed.

(** [k] single steps up from [i] land on [(i + k) mod n]. *)
Lemma advance_up_iter (k : nat) (i : Z) :
  0 <= i < n ->
  Nat.iter k (fun j => advance n j 1) i = (i + Z.of_nat k) mod n.
Proof.
  intros Hi. induction k as [|k IH].
  - simpl. rewrite Z.add_0_r. now rewrite Z.mod_small by lia.
  - rewrite Nat.iter_succ, IH.
    rewrite advance_up by (apply Z.mod_pos_bound; lia).
    rewrite Zplus_mod_idemp_l. f_equal. lia.
Qed.

(** [k] single steps down from [i] land on [(i - k) mod n]. *)
Lemma advance_down_iter (k : nat) (i : Z) :
  0 <= i < n ->
  Nat.iter k (fun j => advance n j (-1)) i = (i - Z.of_nat k) mod n.
Proof.
  intros Hi. induction k as [|k IH].
  - simpl. rewrite Z.sub_0_r. now rewrite Z.mod_small by lia.
  - rewrite Nat.iter_succ, IH.
    rewrite advance_down by (apply Z.mod_pos_bound; lia).
    rewrite Zminus_mod_idemp_l. f_equal. lia.
Qed.
End Cursor.

(** [NextBaudrate] never raises: the cursor it indexes with is in range,
    whatever the cursor and the step were before. *)
Lemma NextBaudrate_Some (updn : Z) (self : Baudrate) :
  exists rate,
    py_getitem BAUDRATES (advance len_BAUDRATES (index self) updn) = Some rate
    /\ In rate BAUDRATES
    /\ NextBaudrate updn self =
       Some (mkBaudrate (port self) (threshold self) (timeout self) (name self)
               (auto_detect self) (verbose self)
               (advance len_BAUDRATES (index self) updn)
               (valid_characters self) (ctlc self) (thread self)
               (serial self ++ [Flush; SetBaudrate rate; Flush])).
Proof.
  destruct (py_getitem_in_range _ BAUDRATES
              (advance len_BAUDRATES (index self) updn)) as [rate [E HIn]].
  { apply advance_in_range. reflexivity. }
  exists rate. split; [exact E|]. split; [exact HIn|].
  unfold NextBaudrate. cbn [index set_index]. rewrite E. reflexivity.
Qed.

(** ** What every run of [Detect] keeps true *)

Lemma classify_manual (self : Baudrate) (x : pyval) (l : locals) :
  auto_detect self = false ->
  classify self x l =
  mkLocals (count l) (whitespace l) (punctuation l) (vowels l)
    (start_time l) (timed_out l) true.
Proof. intros H. unfold classify. rewrite H. reflexivity. Qed.

Lemma detection_needs_whitespace (self : Baudrate) (l : locals) :
  whitespace l = 0 -> detection_satisfied self l = false.
Proof.
  intros H. unfold detection_satisfied. rewrite H. cbn.
  now rewrite andb_false_r.
Qed.

Lemma Inv_Detect_step (now : Z) (rd : pyval) (s : state) :
  Inv s -> Inv (Detect_step now rd s).
Proof.
  intros [Hi Ht Hm Hc Hv Hs Hp]. destruct s as [self l p].
  unfold pc_ok in Hp. cbn [obj frame pc] in *.
  unfold Detect_step. cbn [obj frame pc].
  destruct p as [|byte| | | |how|how v|].
  - (* AtRead *)
    constructor; cbn [obj frame pc]; try assumption.
    + intros Ha. specialize (Hm Ha).
      destruct (start_time l =? 0); exact Hm.
    + unfold pc_ok. cbn [obj frame pc].
      destruct (start_time l =? 0); exact Hp.
  - (* AtByte *)
    destruct (truthy byte).
    + destruct (detection_satisfied self (classify self byte l)) eqn:Ed;
        [|destruct (now - start_time (classify self byte l) >=? timeout self)];
        (constructor; cbn [obj frame pc]; try assumption).
      all: intros Ha; rewrite (classify_manual _ _ _ Ha); exact (Hm Ha).
    + constructor; cbn [obj frame pc]; try assumption.
  - (* AtSwitch *)
    destruct (timed_out l && auto_detect self) eqn:Et.
    + destruct (NextBaudrate_Some (-1) self) as [rate [Er [_ E]]]. rewrite E.
      constructor; cbn [obj frame pc index thread auto_detect ctlc
                          valid_characters serial]; try assumption.
      * apply advance_in_range. reflexivity.
      * exists (serial self), rate. split; [reflexivity | exact Er].
    + constructor; cbn [obj frame pc]; assumption.
  - (* AtClear *)
    destruct (clear_counters l).
    + constructor; cbn [obj frame pc]; try assumption.
      * intros _. repeat split.
      * unfold pc_ok. cbn [obj frame pc].
        now apply detection_needs_whitespace.
    + constructor; cbn [obj frame pc]; assumption.
  - (* AtCancel *)
    destruct (ctlc self) eqn:Ec;
      constructor; cbn [obj frame pc]; try assumption;
      try (intros Hc'; apply Hc; congruence).
  - (* AtReturn *)
    destruct (py_getitem_in_range _ BAUDRATES (index self) Hi) as [r [E HIn]].
    rewrite E. constructor; cbn [obj frame pc]; try assumption.
    unfold pc_ok. cbn [obj frame pc].
    destruct how; (split; [exact Hp | exists r; split; [reflexivity | exact E]]).
  - (* Returned *)
    constructor; cbn [obj frame pc]; assumption.
  - (* Raised *)
    contradiction.
Qed.

Lemma Inv_HandleKeypress_step (c : string) (s : state) :
  Inv s -> Inv (HandleKeypress_step c s).
Proof.
  intros H. unfold HandleKeypress_step.
  destruct (thread (obj s) && negb (ctlc (obj s))) eqn:Ea; [|exact H].
  apply andb_true_iff in Ea. destruct Ea as [Eth Ec].
  apply negb_true_iff in Ec.
  destruct H as [Hi Ht Hm Hc Hv Hs Hp]. destruct s as [self l p].
  cbn [obj frame pc] in *.
  assert (Hauto : auto_detect self = false).
  { rewrite Eth in Ht. now destruct (auto_detect self). }
  assert (Hnd : detection_satisfied self l = false).
  { apply detection_needs_whitespace. now destruct (Hm Hauto) as [_ [? _]]. }
  assert (Hpc : forall self',
             threshold self' = threshold self ->
             pc_ok (mkState self' l p)).
  { intros self' Hthr. unfold pc_ok in *.
    destruct p as [|byte| | | |[|]|[|] v|];
      cbn [obj frame pc] in *;
      try (unfold detection_satisfied in *; rewrite Hthr; assumption);
      first [congruence | destruct Hp; congruence]. }
  unfold HandleKeypress_key.
  destruct (py_in (PyStr c) UPKEYS);
    [|destruct (py_in (PyStr c) DOWNKEYS);
      [|destruct (py_eq (PyStr c) (PyStr (String "003" EmptyString)))]].
  - destruct (NextBaudrate_Some 1 self) as [rate [Er [_ E]]]. rewrite E.
    constructor; cbn [obj frame pc index thread auto_detect ctlc
                        valid_characters serial]; try assumption.
    + apply advance_in_range. reflexivity.
    + exists (serial self), rate. split; [reflexivity | exact Er].
    + now apply Hpc.
  - destruct (NextBaudrate_Some (-1) self) as [rate [Er [_ E]]]. rewrite E.
    constructor; cbn [obj frame pc index thread auto_detect ctlc
                        valid_characters serial]; try assumption.
    + apply advance_in_range. reflexivity.
    + exists (serial self), rate. split; [reflexivity | exact Er].
    + now apply Hpc.
  - constructor; cbn [obj frame pc set_ctlc index thread auto_detect ctlc
                        valid_characters]; try assumption.
    + intros _. exact Hauto.
    + now apply Hpc.
  - constructor; cbn [obj frame pc]; assumption.
Qed.

Lemma Inv_step (s : state) (e : event) : Inv s -> Inv (step s e).
Proof.
  destruct e as [now rd|c]; cbn [step].
  - apply Inv_Detect_step.
  - apply Inv_HandleKeypress_step.
Qed.

Lemma Inv_run (evs : list event) (s : state) : Inv s -> Inv (run evs s).
Proof.
  revert s. induction evs as [|e evs IH]; intros s H; [exact H|].
  cbn [run fold_left]. apply IH. now apply Inv_step.
Qed.

Lemma run_app (evs1 evs2 : list event) (s : state) :
  run (evs1 ++ evs2) s = run evs2 (run evs1 s).
Proof. unfold run. apply fold_left_app. Qed.

Section Started.
Variables (port : string) (threshold timeout : Z) (name : option string)
          (auto verbose : bool).

(** The object as [__init__] and [Open] leave it. *)
Lemma start_eq :
  start port threshold timeout name auto verbose =
  Some (mkState
          (mkBaudrate port threshold timeout name auto verbose 33
             (map chr (range (ord "!") (ord "~" + 1)) ++ WHITESPACE)
             false (negb auto)
             [SerialOpen port timeout; Flush; SetBaudrate "3686400"; Flush])
          (mkLocals 0 0 0 0 0 false false) AtRead).
Proof. destruct auto; reflexivity. Qed.

Lemma Inv_start (s0 : state) :
  start port threshold timeout name auto verbose = Some s0 -> Inv s0.
Proof.
  rewrite start_eq. intros E. injection E as <-.
  constructor; cbn [obj frame pc index thread auto_detect ctlc
                      valid_characters serial].
  - rewrite len_BAUDRATES_eq. lia.
  - reflexivity.
  - intros _. repeat split.
  - discriminate.
  - reflexivity.
  - exists [SerialOpen port timeout], "3686400". split; reflexivity.
  - unfold pc_ok. cbn [obj frame pc]. now apply detection_needs_whitespace.
Qed.

Lemma after_eq (evs : list event) :
after port threshold timeout name auto verbose evs =
Some (run evs
        (mkState
           (mkBaudrate port threshold timeout name auto verbose 33
              (map chr (range (ord "!") (ord "~" + 1)) ++ WHITESPACE)
              false (negb auto)
              [SerialOpen port timeout; Flush; SetBaudrate "3686400"; Flush])
           (mkLocals 0 0 0 0 0 false false) AtRead)).
Proof. destruct auto; reflexivity. Qed.
End Started.

(** ** The catalog cursor *)

Lemma NextBaudrate_times_index (k : nat) (updn : Z) (self : Baudrate) :
  exists self',
    NextBaudrate_times k updn self = Some self'
    /\ index self' =
       Nat.iter k (fun j => advance len_BAUDRATES j updn) (index self).
Proof.
  revert self. induction k as [|k IH]; intros self.
  - exists self. split; reflexivity.
  - cbn [NextBaudrate_times].
    destruct (NextBaudrate_Some updn self) as [rate [_ [_ E]]]. rewrite E.
    destruct (IH (mkBaudrate (port self) (threshold self) (timeout self)
                    (name self) (auto_detect self) (verbose self)
                    (advance len_BAUDRATES (index self) updn)
                    (valid_characters self) (ctlc self) (thread self)
                    (serial self ++ [Flush; SetBaudrate rate; Flush])))
      as [self' [E' Hidx]].
    exists self'. split; [exact E'|].
    rewrite Hidx. cbn [index]. now rewrite Nat.iter_succ_r.
Qed.

(** C6. From every cursor position [i] of the catalog, [NextBaudrate(1)]
    moves the cursor to [i + 1] and from the last index to [0];
    [NextBaudrate(-1)] moves it to [i - 1] and from [0] to the last index;
    and as many calls of [NextBaudrate(1)] as the catalog has rates bring
    the cursor back to [i]. *)
Theorem C6_cursor_wraps_and_cycles (self : Baudrate) :
  0 <= index self < len_BAUDRATES ->
  (exists up,
      NextBaudrate 1 self = Some up
      /\ index up = (index self + 1) mod len_BAUDRATES
      /\ (index self < len_BAUDRATES - 1 -> index up = index self + 1)
      /\ (index self = len_BAUDRATES - 1 -> index up = 0))
  /\ (exists down,
         NextBaudrate (-1) self = Some down
         /\ index down = (index self - 1) mod len_BAUDRATES
         /\ (0 < index self -> index down = index self - 1)
         /\ (index self = 0 -> index down = len_BAUDRATES - 1))
  /\ (exists back,
         NextBaudrate_times (List.length BAUDRATES) 1 self = Some back
         /\ index back = index self).
Proof.
  intros Hi. assert (Hn : 0 < len_BAUDRATES) by reflexivity.
  split; [|split].
  - destruct (NextBaudrate_Some 1 self) as [rate [_ [_ E]]].
    eexists. split; [exact E|]. cbn [index].
    split; [now apply advance_up|].
    rewrite advance_up by assumption. split; intros H.
    + apply Z.mod_small. lia.
    + rewrite H. replace (len_BAUDRATES - 1 + 1) with len_BAUDRATES by lia.
      apply Z.mod_same. lia.
  - destruct (NextBaudrate_Some (-1) self) as [rate [_ [_ E]]].
    eexists. split; [exact E|]. cbn [index].
    split; [now apply advance_down|].
    unfold advance. split; intros H.
    + destruct (index self + -1 >=? len_BAUDRATES) eqn:E1; zbool; [lia|].
      destruct (index self + -1 <? 0) eqn:E2; zbool; lia.
    + rewrite H. reflexivity.
  - destruct (NextBaudrate_times_index (List.length BAUDRATES) 1 self)
      as [back [E Hidx]].
    exists back. split; [exact E|]. rewrite Hidx.
    rewrite advance_up_iter by assumption.
    fold len_BAUDRATES. rewrite <- Z.add_mod_idemp_r by lia.
    rewrite Z.mod_same by lia. rewrite Z.add_0_r. apply Z.mod_small. lia.
Qed.

Lemma C6_cursor_wraps_and_cycles_witness :
  (exists up,
      NextBaudrate 1 (__init__ "/dev/ttyUSB0" 25 5 None true true) = Some up
      /\ index up = 0)
  /\ (exists back,
         NextBaudrate_times 34 1 (__init__ "/dev/ttyUSB0" 25 5 None true true)
         = Some back
         /\ index back = 33).
Proof.
  destruct (C6_cursor_wraps_and_cycles
              (__init__ "/dev/ttyUSB0" 25 5 None true true))
    as [[up [E [_ [_ Hup]]]] [_ [back [Eb Hb]]]].
  - cbn. lia.
  - split.
    + exists up. split; [exact E|]. apply Hup. reflexivity.
    + exists back. split; [exact Eb | exact Hb].
Defined.

(** C8. The cursor is a valid index of the catalog after construction,
    after every call of [NextBaudrate] (whatever integer is passed and
    wherever the cursor was), and in every state a run of [Detect]
    reaches; the catalog has 34 rates, and no statement changes it. *)
Theorem C8_cursor_always_valid :
  len_BAUDRATES = 34
  /\ BAUDRATES <> []
  /\ (forall port threshold timeout name auto verbose,
         0 <= index (__init__ port threshold timeout name auto verbose)
         < len_BAUDRATES)
  /\ (forall updn self,
         exists self',
           NextBaudrate updn self = Some self'
           /\ 0 <= index self' < len_BAUDRATES)
  /\ (forall port threshold timeout name auto verbose evs,
         exists s,
           after port threshold timeout name auto verbose evs = Some s
           /\ 0 <= index (obj s) < len_BAUDRATES).
Proof.
  split; [reflexivity|]. split; [discriminate|]. split; [|split].
  - intros. cbn. lia.
  - intros updn self.
    destruct (NextBaudrate_Some updn self) as [rate [_ [_ E]]].
    eexists. split; [exact E|]. cbn [index].
    apply advance_in_range. reflexivity.
  - intros p th tm nm au vb evs. rewrite after_eq. eexists. split; [reflexivity|].
    apply inv_index, Inv_run, (Inv_start p th tm nm au vb).
    apply start_eq.
Qed.

(** ** Symbolic execution of the loop *)

Lemma step_config (s : state) (e : event) :
  auto_detect (obj (step s e)) = auto_detect (obj s)
  /\ threshold (obj (step s e)) = threshold (obj s)
  /\ timeout (obj (step s e)) = timeout (obj s).
Proof.
  destruct s as [self l p]. destruct e as [now rd|c]; cbn [step].
  - unfold Detect_step. cbn [obj frame pc].
    destruct p as [|byte| | | |how|how v|]; cbn [obj]; auto.
    + destruct (truthy byte); [|cbn [obj]; auto].
      destruct (detection_satisfied self (classify self byte l));
        [|destruct (now - start_time (classify self byte l) >=? timeout self)];
        cbn [obj]; auto.
    + destruct (timed_out l && auto_detect self); [|cbn [obj]; auto].
      destruct (NextBaudrate_Some (-1) self) as [rate [_ [_ E]]]. rewrite E.
      cbn [obj auto_detect threshold timeout]. auto.
    + destruct (clear_counters l); cbn [obj]; auto.
    + destruct (ctlc self); cbn [obj]; auto.
    + destruct (py_getitem BAUDRATES (index self)); cbn [obj]; auto.
  - unfold HandleKeypress_step. cbn [obj frame pc].
    destruct (thread self && negb (ctlc self)); [|cbn [obj]; auto].
    unfold HandleKeypress_key.
    destruct (py_in (PyStr c) UPKEYS);
      [|destruct (py_in (PyStr c) DOWNKEYS);
        [|destruct (py_eq (PyStr c) (PyStr (String "003" EmptyString)))]].
    + destruct (NextBaudrate_Some 1 self) as [rate [_ [_ E]]]. rewrite E.
      cbn [obj auto_detect threshold timeout]. auto.
    + destruct (NextBaudrate_Some (-1) self) as [rate [_ [_ E]]]. rewrite E.
      cbn [obj auto_detect threshold timeout]. auto.
    + cbn [obj set_ctlc auto_detect threshold timeout]. auto.
    + cbn [obj]. auto.
Qed.

Lemma run_config (evs : list event) (s : state) :
  auto_detect (obj (run evs s)) = auto_detect (obj s)
  /\ threshold (obj (run evs s)) = threshold (obj s)
  /\ timeout (obj (run evs s)) = timeout (obj s).
Proof.
  revert s. induction evs as [|e evs IH]; intros s; [auto|].
  cbn [run fold_left]. destruct (IH (step s e)) as [H1 [H2 H3]].
  destruct (step_config s e) as [G1 [G2 G3]].
  unfold run in *. rewrite H1, H2, H3. auto.
Qed.

(** One pass of the loop in automatic mode when the read returns nothing:
    the cursor steps down, the rate is pushed between two flushes, and the
    locals are as at the start of [Detect]. *)
Lemma silent_window (t1 t2 t3 t4 t5 : Z) (s : state) :
  pc s = AtRead -> auto_detect (obj s) = true -> ctlc (obj s) = false ->
  exists rate,
    py_getitem BAUDRATES (advance len_BAUDRATES (index (obj s)) (-1))
    = Some rate
    /\ run (reading (PyBytes []) [t1; t2; t3; t4; t5]) s =
       mkState
         (mkBaudrate (port (obj s)) (threshold (obj s)) (timeout (obj s))
            (name (obj s)) true (verbose (obj s))
            (advance len_BAUDRATES (index (obj s)) (-1))
            (valid_characters (obj s)) false (thread (obj s))
            (serial (obj s) ++ [Flush; SetBaudrate rate; Flush]))
         (mkLocals 0 0 0 0 0 false false) AtRead.
Proof.
  destruct s as [self l p]. cbn [obj frame pc]. intros -> Ha Hc.
  destruct (NextBaudrate_Some (-1) self) as [rate [Er [_ E]]].
  exists rate. split; [exact Er|].
  unfold run, reading. cbn [map fold_left step].
  unfold Detect_step at 5. cbn [obj frame pc].
  unfold Detect_step at 4. cbn [obj frame pc truthy].
  unfold Detect_step at 3. cbn [obj frame pc timed_out]. rewrite Ha, E.
  cbn [andb].
  unfold Detect_step at 2. cbn [obj frame pc clear_counters].
  unfold Detect_step. cbn [obj frame pc ctlc]. rewrite Hc, Ha.
  reflexivity.
Qed.

Lemma reading_app (rd : pyval) (ts1 ts2 : list Z) :
  reading rd (ts1 ++ ts2) = reading rd ts1 ++ reading rd ts2.
Proof. unfold reading. apply map_app. Qed.

(** [k] such passes in a row: the loop is at its head again and the
    cursor has stepped down [k] times. *)
Lemma silent_windows (k : nat) (ts : list Z) (s : state) :
  List.length ts = (5 * k)%nat ->
  pc s = AtRead -> auto_detect (obj s) = true -> ctlc (obj s) = false ->
  pc (run (reading (PyBytes []) ts) s) = AtRead
  /\ index (obj (run (reading (PyBytes []) ts) s)) =
     Nat.iter k (fun j => advance len_BAUDRATES j (-1)) (index (obj s)).
Proof.
  revert ts s. induction k as [|k IH]; intros ts s Hlen Hpc Ha Hc.
  - destruct ts; [|discriminate]. split; [exact Hpc | reflexivity].
  - destruct ts as [|t1 [|t2 [|t3 [|t4 [|t5 ts]]]]]; cbn in Hlen; try lia.
    change (t1 :: t2 :: t3 :: t4 :: t5 :: ts)
      with ([t1; t2; t3; t4; t5] ++ ts).
    rewrite reading_app, run_app.
    destruct (silent_window t1 t2 t3 t4 t5 s Hpc Ha Hc) as [rate [_ E]].
    rewrite E.
    match goal with |- context [run _ ?s1] =>
      destruct (IH ts s1) as [H1 H2]; try reflexivity; [lia|] end.
    split; [exact H1|]. rewrite H2. cbn [obj index].
    now rewrite Nat.iter_succ_r.
Qed.

Section Reached.
Variables (prt : string) (thr tmo : Z) (nm : option string)
          (auto vb : bool).

(** Every run reaches a state, and the state satisfies [Inv] under the
    configuration the object was built with. *)
Lemma after_Inv (evs : list event) :
  exists s,
    after prt thr tmo nm auto vb evs = Some s
    /\ Inv s
    /\ auto_detect (obj s) = auto
    /\ threshold (obj s) = thr
    /\ timeout (obj s) = tmo.
Proof.
  rewrite after_eq.
  eexists. split; [reflexivity|]. split.
  - apply Inv_run, (Inv_start prt thr tmo nm auto vb).
    apply start_eq.
  - match goal with |- context [run evs ?s0] =>
      destruct (run_config evs s0) as [H1 [H2 H3]] end.
    rewrite H1, H2, H3. cbn. auto.
Qed.

Lemma after_app (evs1 evs2 : list event) (s1 : state) :
  after prt thr tmo nm auto vb evs1 = Some s1 ->
  after prt thr tmo nm auto vb (evs1 ++ evs2)
  = Some (run evs2 s1).
Proof.
  rewrite !after_eq. intros E. injection E as <-. now rewrite run_app.
Qed.
End Reached.

(** ** Where the scan starts and how it proceeds *)

Lemma BAUDRATES_denote : map int_of_str BAUDRATES = map Some BAUDRATES_values.
Proof. reflexivity. Qed.

Lemma BAUDRATES_highest (r : string) :
  In r BAUDRATES -> exists v, int_of_str r = Some v /\ v <= 3686400.
Proof.
  intros H.
  assert (F : Forall (fun r => exists v, int_of_str r = Some v /\ v <= 3686400)
                BAUDRATES).
  { repeat (constructor;
            [eexists; split; [reflexivity | apply Z.leb_le; reflexivity]|]).
    constructor. }
  rewrite Forall_forall in F. now apply F.
Qed.

(** C9. Construction leaves the cursor on the last of the 34 entries, the
    highest rate, 3686400; [Open] pushes that rate to the channel
    ([NextBaudrate(0)] keeps the cursor); and in automatic mode [k]
    windows that time out, [k <= 33], leave the cursor on entry [33 - k]
    with that lower rate pushed to the channel, the catalog being in
    increasing order. *)
Theorem C9_scan_starts_at_highest_rate :
  List.length BAUDRATES = 34%nat
  /\ (forall r, In r BAUDRATES ->
                exists v, int_of_str r = Some v /\ v <= 3686400)
  /\ (map int_of_str BAUDRATES = map Some BAUDRATES_values
      /\ StronglySorted Z.lt BAUDRATES_values)
  /\ (forall prt thr tmo nm auto vb,
         index (__init__ prt thr tmo nm auto vb) = 33
         /\ py_getitem BAUDRATES (index (__init__ prt thr tmo nm auto vb))
            = Some "3686400"
         /\ exists self,
              Open (__init__ prt thr tmo nm auto vb) = Some self
              /\ index self = 33
              /\ serial self =
                 [SerialOpen prt tmo; Flush; SetBaudrate "3686400"; Flush])
  /\ (forall prt thr tmo nm vb (k : nat) (ts : list Z),
         List.length ts = (5 * k)%nat -> (k <= 33)%nat ->
         exists s rate pre,
           after prt thr tmo nm true vb (reading (PyBytes []) ts) = Some s
           /\ pc s = AtRead
           /\ index (obj s) = 33 - Z.of_nat k
           /\ py_getitem BAUDRATES (33 - Z.of_nat k) = Some rate
           /\ serial (obj s) = pre ++ [Flush; SetBaudrate rate; Flush]).
Proof.
  split; [reflexivity|]. split; [exact BAUDRATES_highest|].
  split; [split; [reflexivity|]|].
  { unfold BAUDRATES_values.
    repeat (constructor; [|repeat (constructor; [reflexivity|]); constructor]).
    constructor. }
  split.
  - intros prt thr tmo nm auto vb. split; [reflexivity|].
    split; [reflexivity|]. eexists. split; [reflexivity|].
    split; reflexivity.
  - intros prt thr tmo nm vb k ts Hlen Hk.
    destruct (after_Inv prt thr tmo nm true vb (reading (PyBytes []) ts))
      as [s [E [HI _]]].
    assert (Hs : pc s = AtRead /\ index (obj s) = 33 - Z.of_nat k).
    { rewrite after_eq in E.
      injection E as <-.
      match goal with |- context [run _ ?s0] =>
        destruct (silent_windows k ts s0 Hlen) as [H1 H2];
          try reflexivity end.
      split; [exact H1|]. rewrite H2. cbn [obj index].
      rewrite advance_down_iter by (rewrite ?len_BAUDRATES_eq; lia).
      rewrite len_BAUDRATES_eq. apply Z.mod_small. lia. }
    destruct Hs as [Hpc Hidx].
    destruct (inv_serial s HI) as [pre [rate [Hser Hrate]]].
    exists s, rate, pre. rewrite Hidx in Hrate. auto.
Qed.

Lemma C9_scan_starts_at_highest_rate_witness :
  exists s rate pre,
    after "/dev/ttyUSB0" 25 5 None true true
      (reading (PyBytes []) [1; 2; 3; 4; 5; 6; 7; 8; 9; 10]) = Some s
    /\ pc s = AtRead
    /\ index (obj s) = 33 - Z.of_nat 2
    /\ py_getitem BAUDRATES (33 - Z.of_nat 2) = Some rate
    /\ serial (obj s) = pre ++ [Flush; SetBaudrate rate; Flush].
Proof.
  apply (proj2 (proj2 (proj2 (proj2 C9_scan_starts_at_highest_rate)))).
  - reflexivity.
  - lia.
Defined.

(** ** How [Detect] ends *)

(** C7. [Detect] has left its loop only if the detection test held or the
    cancellation flag was set; in automatic mode the flag is never set,
    so only a detection ends it; and any number of windows that time out,
    also more than the catalog has rates, leave [Detect] at the head of
    its loop, the cursor going round the catalog. *)
Theorem C7_no_exhaustion_exit :
  (forall prt thr tmo nm auto vb evs,
      exists s,
        after prt thr tmo nm auto vb evs = Some s
        /\ pc s <> Raised
        /\ forall how v,
             pc s = AtReturn how \/ pc s = Returned how v ->
             (how = Detected /\ detection_satisfied (obj s) (frame s) = true)
             \/ (how = Cancelled /\ ctlc (obj s) = true))
  /\ (forall prt thr tmo nm vb evs,
         exists s,
           after prt thr tmo nm true vb evs = Some s
           /\ ctlc (obj s) = false
           /\ forall how v,
                pc s = AtReturn how \/ pc s = Returned how v ->
                how = Detected
                /\ detection_satisfied (obj s) (frame s) = true)
  /\ (forall prt thr tmo nm vb (k : nat) (ts : list Z),
         List.length ts = (5 * k)%nat ->
         exists s,
           after prt thr tmo nm true vb (reading (PyBytes []) ts) = Some s
           /\ pc s = AtRead
           /\ index (obj s) = (33 - Z.of_nat k) mod 34).
Proof.
  assert (General : forall prt thr tmo nm auto vb evs,
             exists s,
               after prt thr tmo nm auto vb evs = Some s
               /\ auto_detect (obj s) = auto /\ Inv s
               /\ pc s <> Raised
               /\ forall how v,
                    pc s = AtReturn how \/ pc s = Returned how v ->
                    (how = Detected
                     /\ detection_satisfied (obj s) (frame s) = true)
                    \/ (how = Cancelled /\ ctlc (obj s) = true)).
  { intros prt thr tmo nm auto vb evs.
    destruct (after_Inv prt thr tmo nm auto vb evs) as [s [E [HI [Ha _]]]].
    exists s. split; [exact E|]. split; [exact Ha|]. split; [exact HI|].
    pose proof (inv_pc s HI) as Hp. unfold pc_ok in Hp. split.
    - intros Hr. rewrite Hr in Hp. exact Hp.
    - intros how v [Hr|Hr]; rewrite Hr in Hp; destruct how.
      + left. auto.
      + right. auto.
      + left. destruct Hp as [Hp _]. auto.
      + right. destruct Hp as [Hp _]. auto. }
  split; [|split].
  - intros prt thr tmo nm auto vb evs.
    destruct (General prt thr tmo nm auto vb evs) as [s [E [_ [_ H]]]].
    exists s. auto.
  - intros prt thr tmo nm vb evs.
    destruct (General prt thr tmo nm true vb evs)
      as [s [E [Ha [HI [_ H]]]]].
    assert (Hc : ctlc (obj s) = false).
    { destruct (ctlc (obj s)) eqn:Ec; [|reflexivity].
      pose proof (inv_ctlc s HI Ec). congruence. }
    exists s. split; [exact E|]. split; [exact Hc|].
    intros how v Hr. destruct (H how v Hr) as [G|[_ G]]; [exact G|congruence].
  - intros prt thr tmo nm vb k ts Hlen.
    rewrite after_eq.
    eexists. split; [reflexivity|].
    match goal with |- context [run _ ?s0] =>
      destruct (silent_windows k ts s0 Hlen) as [H1 H2];
        try reflexivity end.
    split; [exact H1|]. rewrite H2. cbn [obj index].
    rewrite advance_down_iter by (rewrite ?len_BAUDRATES_eq; lia).
    reflexivity.
Qed.

Lemma C7_no_exhaustion_exit_witness :
  exists s,
    after "/dev/ttyUSB0" 25 5 None true true
      (reading (PyBytes []) (repeat 7 (5 * 40))) = Some s
    /\ pc s = AtRead
    /\ index (obj s) = (33 - Z.of_nat 40) mod 34.
Proof.
  apply (proj2 (proj2 C7_no_exhaustion_exit)). reflexivity.
Defined.

(** C10. In manual mode every byte takes the branch that marks the
    counters for clearing, the four counters are zero in every state a
    run reaches, the detection test is false there, and [Detect] has left
    its loop only through the cancellation flag. *)
Theorem C10_manual_mode_never_detects :
  forall prt thr tmo nm vb evs,
    exists s,
      after prt thr tmo nm false vb evs = Some s
      /\ (forall byte,
             classify (obj s) byte (frame s) =
             mkLocals (count (frame s)) (whitespace (frame s))
               (punctuation (frame s)) (vowels (frame s))
               (start_time (frame s)) (timed_out (frame s)) true)
      /\ (count (frame s) = 0 /\ whitespace (frame s) = 0
          /\ punctuation (frame s) = 0 /\ vowels (frame s) = 0)
      /\ detection_satisfied (obj s) (frame s) = false
      /\ pc s <> AtReturn Detected
      /\ (forall v, pc s <> Returned Detected v)
      /\ (forall how v,
             pc s = AtReturn how \/ pc s = Returned how v ->
             how = Cancelled /\ ctlc (obj s) = true).
Proof.
  intros prt thr tmo nm vb evs.
  destruct (after_Inv prt thr tmo nm false vb evs) as [s [E [HI [Ha _]]]].
  exists s. split; [exact E|].
  pose proof (inv_manual s HI Ha) as Hz.
  assert (Hnd : detection_satisfied (obj s) (frame s) = false).
  { apply detection_needs_whitespace. now destruct Hz as [_ [? _]]. }
  pose proof (inv_pc s HI) as Hp. unfold pc_ok in Hp.
  split; [intros byte; now apply classify_manual|].
  split; [exact Hz|]. split; [exact Hnd|].
  split; [|split].
  - intros Hr. rewrite Hr in Hp. congruence.
  - intros v Hr. rewrite Hr in Hp. destruct Hp. congruence.
  - intros how v [Hr|Hr]; rewrite Hr in Hp; destruct how.
    + congruence.
    + auto.
    + destruct Hp as [Hp _]. congruence.
    + destruct Hp as [Hp _]. auto.
Qed.

(** ** The detection test *)

Lemma detection_satisfied_iff (self : Baudrate) (l : locals) :
  detection_satisfied self l = true <->
  count l >= threshold self /\ whitespace l > 0 /\ punctuation l > 0
  /\ vowels l > 0.
Proof.
  unfold detection_satisfied. rewrite !andb_true_iff.
  rewrite Z.geb_le, !Z.gtb_lt. lia.
Qed.

Lemma classify_keeps_whitespace (self : Baudrate) (x : pyval) (l : locals) :
  py_in x WHITESPACE = false ->
  whitespace (classify self x l) = whitespace l.
Proof.
  intros H. unfold classify. rewrite H.
  destruct (auto_detect self && py_in x (valid_characters self));
    [|reflexivity].
  destruct (py_in x PUNCTUATION); [reflexivity|].
  destruct (py_in x VOWELS); reflexivity.
Qed.

Lemma no_whitespace_seen_step (s : state) (now : Z) (rd : pyval) :
  py_in rd WHITESPACE = false ->
  no_whitespace_seen s -> no_whitespace_seen (Detect_step now rd s).
Proof.
  intros Hrd [Hw Hp]. destruct s as [self l p]. cbn [obj frame pc] in *.
  unfold Detect_step, no_whitespace_seen. cbn [obj frame pc].
  destruct p as [|byte| | | |how|how v|].
  - split; [|exact Hrd]. now destruct (start_time l =? 0).
  - destruct (truthy byte); [|split; [exact Hw | exact I]].
    assert (Hw' : whitespace (classify self byte l) = 0)
      by now rewrite classify_keeps_whitespace.
    rewrite (detection_needs_whitespace self _ Hw').
    destruct (now - start_time (classify self byte l) >=? timeout self);
      (split; [exact Hw' | exact I]).
  - destruct (timed_out l && auto_detect self);
      [|split; [exact Hw | exact I]].
    destruct (NextBaudrate_Some (-1) self) as [rate [_ [_ E]]]. rewrite E.
    split; [exact Hw | exact I].
  - destruct (clear_counters l); (split; [first [reflexivity | exact Hw] | exact I]).
  - destruct (ctlc self); (split; [exact Hw | exact I]).
  - destruct (py_getitem BAUDRATES (index self));
      (split; [exact Hw|]); cbn [pc]; [destruct how; [contradiction|]|];
      exact I.
  - split; assumption.
  - split; assumption.
Qed.

Lemma no_whitespace_seen_reading (rd : pyval) (ts : list Z) (s : state) :
  py_in rd WHITESPACE = false ->
  no_whitespace_seen s -> no_whitespace_seen (run (reading rd ts) s).
Proof.
  intros Hrd. revert s. induction ts as [|now ts IH]; intros s H; [exact H|].
  cbn [reading map run fold_left step]. apply IH.
  now apply no_whitespace_seen_step.
Qed.

(** C4. The test that ends [Detect] with a detection holds exactly when
    [count >= threshold], [whitespace > 0], [punctuation > 0] and
    [vowels > 0]; it fails whenever one of the three category counters is
    zero, however large [count] is; on a non-empty read [Detect] takes the
    detection exit exactly when the test holds for the counters as the
    read left them; and a stream that repeats the letter [a], 1000 times
    or any number of times, never ends [Detect] with a detection. *)
Theorem C4_detection_test :
  (forall self l,
      detection_satisfied self l = true <->
      count l >= threshold self /\ whitespace l > 0 /\ punctuation l > 0
      /\ vowels l > 0)
  /\ (forall self l,
         whitespace l = 0 \/ punctuation l = 0 \/ vowels l = 0 ->
         detection_satisfied self l = false)
  /\ (forall self l byte now rd,
         truthy byte = true ->
         (pc (Detect_step now rd (mkState self l (AtByte byte)))
          = AtReturn Detected
          <-> detection_satisfied self (classify self byte l) = true))
  /\ (forall prt thr tmo nm auto vb (a : pyval) (ts : list Z),
         a = PyBytes [x61] \/ a = PyStr "a" ->
         exists s,
           after prt thr tmo nm auto vb (reading a ts) = Some s
           /\ whitespace (frame s) = 0
           /\ detection_satisfied (obj s) (frame s) = false
           /\ pc s <> AtReturn Detected
           /\ forall v, pc s <> Returned Detected v).
Proof.
  split; [exact detection_satisfied_iff|]. split; [|split].
  - intros self l H.
    destruct (detection_satisfied self l) eqn:E; [|reflexivity].
    apply detection_satisfied_iff in E. lia.
  - intros self l byte now rd Ht. unfold Detect_step. cbn [obj frame pc].
    rewrite Ht.
    destruct (detection_satisfied self (classify self byte l));
      [cbn [pc]; tauto|].
    destruct (now - start_time (classify self byte l) >=? timeout self);
      cbn [pc]; split; discriminate.
  - intros prt thr tmo nm auto vb a ts Ha.
    assert (Hws : py_in a WHITESPACE = false)
      by (destruct Ha as [-> | ->]; reflexivity).
    rewrite after_eq.
    eexists. split; [reflexivity|].
    match goal with |- context [run _ ?s0] =>
      destruct (no_whitespace_seen_reading a ts s0 Hws) as [Hw Hp] end.
    { split; [reflexivity | exact I]. }
    split; [exact Hw|].
    split; [now apply detection_needs_whitespace|].
    split.
    + intros Hr. rewrite Hr in Hp. exact Hp.
    + intros v Hr. rewrite Hr in Hp. exact Hp.
Qed.

Lemma C4_detection_test_witness :
  detection_satisfied (__init__ "/dev/ttyUSB0" 25 5 None true true)
    (mkLocals 1000 0 0 1000 0 false false) = false
  /\ exists s,
       after "/dev/ttyUSB0" 25 5 None true true
         (reading (PyBytes [x61]) (repeat 1 5000)) = Some s
       /\ whitespace (frame s) = 0
       /\ detection_satisfied (obj s) (frame s) = false
       /\ pc s <> AtReturn Detected
       /\ forall v, pc s <> Returned Detected v.
Proof.
  split.
  - apply (proj1 (proj2 C4_detection_test)). left. reflexivity.
  - apply (proj2 (proj2 (proj2 C4_detection_test))). left. reflexivity.
Defined.

(** ** What a read is compared with *)

(** A [bytes] object is [==] to no [str], so it is [in] no list of them. *)
Lemma py_in_bytes (b : bytes) (l : list string) : py_in (PyBytes b) l = false.
Proof. induction l as [|s l IH]; [reflexivity | exact IH]. Qed.

Lemma classify_bytes (self : Baudrate) (b : bytes) (l : locals) :
  classify self (PyBytes b) l =
  mkLocals (count l) (whitespace l) (punctuation l) (vowels l)
    (start_time l) (timed_out l) true.
Proof.
  unfold classify. rewrite py_in_bytes, andb_false_r. reflexivity.
Qed.

(** On a [str] of one character the membership test of line 171 is the
    accepted set: the list [_gen_char_list] builds is the right one. *)
Lemma py_in_valid_characters (c : ascii) :
  py_in (PyStr (String c EmptyString))
    (map chr (range (ord "!") (ord "~" + 1)) ++ WHITESPACE)
  = accepted_char c.
Proof. destruct c as [[] [] [] [] [] [] [] []]; reflexivity. Qed.

(** On a [str] of one character, line 171 counts exactly the accepted
    characters and marks the others for clearing: the test misses only
    because the channel delivers [bytes], not [str]. *)
Lemma classify_str_char (self : Baudrate) (c : ascii) (l : locals) :
  auto_detect self = true ->
  valid_characters self
  = map chr (range (ord "!") (ord "~" + 1)) ++ WHITESPACE ->
  count (classify self (PyStr (String c EmptyString)) l)
  = (if accepted_char c then count l + 1 else count l)
  /\ clear_counters (classify self (PyStr (String c EmptyString)) l)
     = (if accepted_char c then clear_counters l else true).
Proof.
  intros Ha Hv. unfold classify.
  rewrite Ha, Hv, py_in_valid_characters. cbn [andb].
  destruct (accepted_char c); [|split; reflexivity].
  destruct (py_in _ WHITESPACE); [split; reflexivity|].
  destruct (py_in _ PUNCTUATION); [split; reflexivity|].
  destruct (py_in _ VOWELS); split; reflexivity.
Qed.

Lemma only_bytes_seen_step (s : state) (now : Z) (b : bytes) :
  only_bytes_seen s -> only_bytes_seen (Detect_step now (PyBytes b) s).
Proof.
  intros [Hz Hp]. destruct s as [self l p]. cbn [obj frame pc] in *.
  assert (Hnd : detection_satisfied self l = false).
  { apply detection_needs_whitespace. now destruct Hz as [_ [? _]]. }
  unfold Detect_step, only_bytes_seen. cbn [obj frame pc].
  destruct p as [|byte| | | |how|how v|].
  - split; [|now exists b]. now destruct (start_time l =? 0).
  - destruct Hp as [b' ->].
    destruct (truthy (PyBytes b')); [|split; [exact Hz | exact I]].
    rewrite classify_bytes.
    replace (detection_satisfied self _) with false
      by (symmetry; apply detection_needs_whitespace; apply Hz).
    cbn [start_time].
    destruct (now - start_time l >=? timeout self);
      (split; [exact Hz | exact I]).
  - destruct (timed_out l && auto_detect self);
      [|split; [exact Hz | exact I]].
    destruct (NextBaudrate_Some (-1) self) as [rate [_ [_ E]]]. rewrite E.
    split; [exact Hz | exact I].
  - destruct (clear_counters l); (split; [|exact I]);
      [repeat split | exact Hz].
  - destruct (ctlc self); (split; [exact Hz | exact I]).
  - destruct (py_getitem BAUDRATES (index self));
      (split; [exact Hz|]); cbn [pc]; [destruct how; [contradiction|]|];
      exact I.
  - split; assumption.
  - split; assumption.
Qed.

Lemma py_in_long_str (c d : ascii) (r : string) (l : list string) :
  Forall (fun x => String.length x = 1%nat) l ->
  py_in (PyStr (String c (String d r))) l = false.
Proof.
  unfold py_in. induction 1 as [|x l Hx _ IH]; [reflexivity|].
  cbn [existsb]. rewrite IH, orb_false_r.
  destruct x as [|a [|b x]]; try discriminate Hx.
  cbn [py_eq String.eqb]. now destruct (Ascii.eqb c a).
Qed.

Lemma valid_characters_single :
  Forall (fun x => String.length x = 1%nat)
    (map chr (range (ord "!") (ord "~" + 1)) ++ WHITESPACE).
Proof. repeat constructor. Qed.

(** On every [str], the membership test of line 171 is the accepted set. *)
Lemma py_in_valid_str (str : string) :
  py_in (PyStr str) (map chr (range (ord "!") (ord "~" + 1)) ++ WHITESPACE)
  = accepted (PyStr str).
Proof.
  destruct str as [|c [|d r]].
  - reflexivity.
  - apply py_in_valid_characters.
  - apply py_in_long_str, valid_characters_single.
Qed.

Lemma classify_str_count (self : Baudrate) (str : string) (l : locals) :
  auto_detect self = true ->
  valid_characters self
  = map chr (range (ord "!") (ord "~" + 1)) ++ WHITESPACE ->
  count (classify self (PyStr str) l)
  = (if accepted (PyStr str) then count l + 1 else count l).
Proof.
  intros Ha Hv. unfold classify. rewrite Ha, Hv, py_in_valid_str.
  cbn [andb]. destruct (accepted (PyStr str)); [|reflexivity].
  destruct (py_in _ WHITESPACE); [reflexivity|].
  destruct (py_in _ PUNCTUATION); [reflexivity|].
  destruct (py_in _ VOWELS); reflexivity.
Qed.

Lemma counting_str_step (acc : Z) (s : state) (e : event) :
  counting_str acc s -> str_read e ->
  counting_str
    match e, pc s with
    | Main _ _, AtByte byte =>
        if truthy byte && accepted byte then acc + 1 else acc
    | Main _ _, AtClear => if clear_counters (frame s) then 0 else acc
    | _, _ => acc
    end
    (step s e).
Proof.
  intros [Ha [Hv [Hc Hp]]] He. destruct s as [self l p].
  cbn [obj frame pc] in *. unfold counting_str.
  destruct e as [now rd|c]; cbn [step str_read] in *.
  - unfold Detect_step. cbn [obj frame pc].
    destruct p as [|byte| | | |how|how v|].
    + destruct (start_time l =? 0); cbn [obj frame pc count]; auto.
    + destruct (truthy byte) eqn:Et.
      * destruct (Hp eq_refl) as [str ->]. cbn [andb].
        pose proof (classify_str_count self str l Ha Hv) as Hcount.
        destruct (detection_satisfied self (classify self (PyStr str) l));
          [|destruct (now - start_time (classify self (PyStr str) l)
                      >=? timeout self)];
          cbn [obj frame pc count]; rewrite Hcount, Hc; auto.
      * cbn [andb obj frame pc count]. auto.
    + destruct (timed_out l && auto_detect self);
        [|cbn [obj frame pc]; auto].
      destruct (NextBaudrate_Some (-1) self) as [rate [_ [_ E]]]. rewrite E.
      cbn [obj frame pc count auto_detect valid_characters]. auto.
    + destruct (clear_counters l); cbn [obj frame pc count]; auto.
    + destruct (ctlc self); cbn [obj frame pc]; auto.
    + destruct (py_getitem BAUDRATES (index self)); cbn [obj frame pc]; auto.
    + cbn [obj frame pc]. auto.
    + cbn [obj frame pc]. auto.
  - assert (Hacc : match p with
                   | AtByte _ | _ => acc
                   end = acc) by now destruct p.
    replace (match p with AtByte _ | _ => acc end) with acc
      by now destruct p.
    clear Hacc. unfold HandleKeypress_step. cbn [obj frame pc].
    destruct (thread self && negb (ctlc self)); [|cbn [obj frame pc]; auto].
    unfold HandleKeypress_key.
    destruct (py_in (PyStr c) UPKEYS);
      [|destruct (py_in (PyStr c) DOWNKEYS);
        [|destruct (py_eq (PyStr c) (PyStr (String "003" EmptyString)))]].
    + destruct (NextBaudrate_Some 1 self) as [rate [_ [_ E]]]. rewrite E.
      cbn [obj frame pc auto_detect valid_characters]. auto.
    + destruct (NextBaudrate_Some (-1) self) as [rate [_ [_ E]]]. rewrite E.
      cbn [obj frame pc auto_detect valid_characters]. auto.
    + cbn [obj frame pc set_ctlc auto_detect valid_characters]. auto.
    + cbn [obj frame pc]. auto.
Qed.

(** While the non-empty reads are [str] objects, [count] is the number of
    accepted characters since the last clear, in every state of every
    run in automatic mode. *)
Lemma counting_str_run (evs : list event) (acc : Z) (s : state) :
  counting_str acc s -> Forall str_read evs ->
  counting_str (accepted_since_clear evs s acc) (run evs s).
Proof.
  revert acc s. induction evs as [|e evs IH]; intros acc s H Hall;
    [exact H|].
  inversion Hall as [|e' evs' He Hevs]; subst.
  cbn [accepted_since_clear run fold_left]. apply IH; [|exact Hevs].
  now apply counting_str_step.
Qed.

(** A byte outside the list of line 171 marks the counters for clearing,
    and the pass clears them before the next read. *)
Lemma rejected_byte_clears (s : state) (byte : pyval)
    (t1 t2 t3 : Z) (r1 r2 r3 : pyval) :
  Inv s -> pc s = AtByte byte -> truthy byte = true ->
  py_in byte (valid_characters (obj s)) = false ->
  clear_counters (frame (Detect_step t1 r1 s)) = true
  /\ pc (run [Main t1 r1; Main t2 r2; Main t3 r3] s) = AtCancel
  /\ zero4 (frame (run [Main t1 r1; Main t2 r2; Main t3 r3] s)).
Proof.
  intros HI Hpc Ht Hrej. pose proof (inv_pc s HI) as Hp.
  unfold pc_ok in Hp. destruct s as [self l p]. cbn [obj frame pc] in *.
  subst p.
  assert (Hcl : classify self byte l =
                mkLocals (count l) (whitespace l) (punctuation l) (vowels l)
                  (start_time l) (timed_out l) true).
  { unfold classify. rewrite Hrej, andb_false_r. reflexivity. }
  assert (Hnd : detection_satisfied self (classify self byte l) = false).
  { rewrite Hcl. exact Hp. }
  assert (E1 : exists to,
             Detect_step t1 r1 (mkState self l (AtByte byte))
             = mkState self
                 (mkLocals (count l) (whitespace l) (punctuation l)
                    (vowels l) (start_time l) to true) AtSwitch).
  { unfold Detect_step. cbn [obj frame pc]. rewrite Ht, Hnd, Hcl.
    cbn [start_time count whitespace punctuation vowels timed_out
         clear_counters].
    destruct (t1 - start_time l >=? timeout self); eexists; reflexivity. }
  destruct E1 as [to E1].
  assert (E2 : exists self2 st2 to2,
             Detect_step t2 r2
               (mkState self
                  (mkLocals (count l) (whitespace l) (punctuation l)
                     (vowels l) (start_time l) to true) AtSwitch)
             = mkState self2
                 (mkLocals (count l) (whitespace l) (punctuation l)
                    (vowels l) st2 to2 true) AtClear).
  { unfold Detect_step. cbn [obj frame pc timed_out].
    destruct (to && auto_detect self).
    - destruct (NextBaudrate_Some (-1) self) as [rate [_ [_ E]]]. rewrite E.
      do 3 eexists. reflexivity.
    - do 3 eexists. reflexivity. }
  destruct E2 as [self2 [st2 [to2 E2]]].
  change (run [Main t1 r1; Main t2 r2; Main t3 r3]
            (mkState self l (AtByte byte)))
    with (Detect_step t3 r3
            (Detect_step t2 r2
               (Detect_step t1 r1 (mkState self l (AtByte byte))))).
  rewrite E1, E2. split; [reflexivity|].
  split; [reflexivity | repeat split].
Qed.

(** Had the channel delivered [str] objects, [count] would be what the
    specification says, from the start of every run in automatic mode. *)
Lemma count_is_accepted_since_clear_str
    (prt : string) (thr tmo : Z) (nm : option string) (vb : bool)
    (evs : list event) :
  Forall str_read evs ->
  exists s0 s,
    start prt thr tmo nm true vb = Some s0
    /\ after prt thr tmo nm true vb evs = Some s
    /\ count (frame s) = accepted_since_clear evs s0 0.
Proof.
  intros Hall. rewrite start_eq, after_eq. do 2 eexists.
  split; [reflexivity|]. split; [reflexivity|].
  match goal with |- context [run evs ?s0] =>
    destruct (counting_str_run evs 0 s0) as [_ [_ [Hc _]]];
      [repeat split | exact Hall | exact Hc] end.
Qed.

(** C1. Classifying a [bytes] object never counts it: whatever it holds,
    line 171 compares it with [str] objects, finds it in no list, and
    takes the branch that marks the counters for clearing. So when the
    first read of a run in automatic mode returns [b'a'], a byte of the
    accepted set, one accepted byte has been received since the last
    clear but [count] is [0] at the detection test; and as long as the
    reads return [bytes] objects, the four counters are zero in every
    state and [Detect] never ends with a detection. *)
Theorem C1_bytes_read_is_never_counted :
  (forall self b l,
      classify self (PyBytes b) l =
      mkLocals (count l) (whitespace l) (punctuation l) (vowels l)
        (start_time l) (timed_out l) true)
  /\ (forall prt thr tmo nm vb t0 t1 rd,
         exists s0 s,
           start prt thr tmo nm true vb = Some s0
           /\ after prt thr tmo nm true vb
                [Main t0 (PyBytes [x61]); Main t1 rd] = Some s
           /\ pc s = AtSwitch
           /\ AcceptedCharacterSet x61 = true
           /\ accepted_since_clear [Main t0 (PyBytes [x61]); Main t1 rd] s0 0
              = 1
           /\ count (frame s) = 0
           /\ clear_counters (frame s) = true)
  /\ (forall prt thr tmo nm vb (reads : list (Z * bytes)),
         exists s,
           after prt thr tmo nm true vb
             (map (fun r => Main (fst r) (PyBytes (snd r))) reads) = Some s
           /\ (count (frame s) = 0 /\ whitespace (frame s) = 0
               /\ punctuation (frame s) = 0 /\ vowels (frame s) = 0)
           /\ pc s <> AtReturn Detected
           /\ forall v, pc s <> Returned Detected v).
Proof.
  split; [exact classify_bytes|]. split.
  - intros prt thr tmo nm vb t0 t1 rd.
    rewrite start_eq, after_eq. do 2 eexists.
    split; [reflexivity|]. split; [reflexivity|].
    split; [|split; [reflexivity|split; [reflexivity|]]].
    all: unfold run; cbn [fold_left step].
    all: match goal with
         | |- context [Detect_step ?t ?x (mkState ?o ?l AtRead)] =>
             change (Detect_step t x (mkState o l AtRead))
               with (mkState o (mkLocals 0 0 0 0 t false false) (AtByte x))
         end.
    all: unfold Detect_step; cbn [obj frame pc truthy].
    all: rewrite classify_bytes.
    all: rewrite detection_needs_whitespace by reflexivity.
    all: cbn [start_time count whitespace punctuation vowels timed_out
              clear_counters].
    all: match goal with |- context [if ?c then _ else _] => destruct c end;
      cbn [pc frame count clear_counters]; auto.
  - intros prt thr tmo nm vb reads.
    rewrite after_eq.
    eexists. split; [reflexivity|].
    match goal with |- context [run _ ?s0] =>
      assert (H : only_bytes_seen s0) by (split; [repeat split | exact I]);
      generalize dependent s0 end.
    induction reads as [|[now b] reads IH]; intros s0 H.
    + destruct H as [Hz Hp]. cbn [map run fold_left].
      split; [exact Hz|].
      split; [intros Hr | intros v Hr]; rewrite Hr in Hp; exact Hp.
    + cbn [map run fold_left step fst snd]. apply IH.
      now apply only_bytes_seen_step.
Qed.

(** ** A window that times out *)

Lemma classify_start_time (self : Baudrate) (x : pyval) (l : locals) :
  start_time (classify self x l) = start_time l.
Proof.
  unfold classify.
  destruct (auto_detect self && py_in x (valid_characters self));
    [|reflexivity].
  destruct (py_in x WHITESPACE); [reflexivity|].
  destruct (py_in x PUNCTUATION); [reflexivity|].
  destruct (py_in x VOWELS); reflexivity.
Qed.

(** C5. In automatic mode, when the read of a pass returned nothing, or
    returned a byte that did not complete a detection while the time
    since [start_time] had reached the timeout, the pass marks the window
    as timed out and its next statement sets [start_time] back to [0],
    moves the cursor one step down (from [0] round to the last index),
    flushes the channel, sets the rate at the new cursor, flushes again,
    and marks the counters for clearing. *)
Theorem C5_timeout_switches_rate :
  forall prt thr tmo nm vb evs s byte now rd now' rd',
    after prt thr tmo nm true vb evs = Some s ->
    pc s = AtByte byte ->
    truthy byte = false
    \/ (detection_satisfied (obj s) (classify (obj s) byte (frame s)) = false
        /\ now - start_time (frame s) >= tmo) ->
    exists rate,
      pc (Detect_step now rd s) = AtSwitch
      /\ timed_out (frame (Detect_step now rd s)) = true
      /\ pc (Detect_step now' rd' (Detect_step now rd s)) = AtClear
      /\ start_time (frame (Detect_step now' rd' (Detect_step now rd s))) = 0
      /\ index (obj (Detect_step now' rd' (Detect_step now rd s)))
         = (index (obj s) - 1) mod len_BAUDRATES
      /\ py_getitem BAUDRATES
           (index (obj (Detect_step now' rd' (Detect_step now rd s))))
         = Some rate
      /\ serial (obj (Detect_step now' rd' (Detect_step now rd s)))
         = serial (obj s) ++ [Flush; SetBaudrate rate; Flush]
      /\ clear_counters (frame (Detect_step now' rd' (Detect_step now rd s)))
         = true.
Proof.
  intros prt thr tmo nm vb evs s byte now rd now' rd' E Hpc Hto.
  destruct (after_Inv prt thr tmo nm true vb evs) as [s' [E' [HI [Ha [_ Htmo]]]]].
  rewrite E in E'. injection E' as <-.
  pose proof (inv_index s HI) as Hi.
  destruct s as [self l p]. cbn [obj frame pc] in *. subst p.
  destruct (NextBaudrate_Some (-1) self) as [rate [Er [_ En]]].
  exists rate.
  assert (E1 : exists l1,
             Detect_step now rd (mkState self l (AtByte byte))
             = mkState self l1 AtSwitch /\ timed_out l1 = true).
  { unfold Detect_step. cbn [obj frame pc].
    destruct (truthy byte) eqn:Et.
    - destruct Hto as [Hto|[Hnd Hel]]; [discriminate|].
      rewrite Hnd, classify_start_time.
      replace (now - start_time l >=? timeout self) with true
        by (symmetry; apply Z.geb_le; lia).
      eexists. split; reflexivity.
    - eexists. split; reflexivity. }
  destruct E1 as [l1 [E1 Ht1]]. rewrite E1. cbn [pc frame].
  split; [reflexivity|]. split; [exact Ht1|].
  unfold Detect_step. cbn [obj frame pc]. rewrite Ht1, Ha, En.
  cbn [andb pc frame obj start_time clear_counters index serial].
  rewrite advance_down by (try reflexivity; assumption).
  repeat split; try reflexivity.
  now rewrite <- advance_down by (try reflexivity; assumption).
Qed.

Lemma C5_timeout_switches_rate_witness :
  exists s,
    after "/dev/ttyUSB0" 25 5 None true true [Main 100 (PyBytes [])] = Some s
    /\ exists rate,
         pc (Detect_step 105 (PyBytes []) s) = AtSwitch
         /\ timed_out (frame (Detect_step 105 (PyBytes []) s)) = true
         /\ pc (Detect_step 106 (PyBytes []) (Detect_step 105 (PyBytes []) s)) = AtClear
         /\ start_time (frame (Detect_step 106 (PyBytes [])
                                 (Detect_step 105 (PyBytes []) s))) = 0
         /\ index (obj (Detect_step 106 (PyBytes []) (Detect_step 105 (PyBytes []) s)))
            = (index (obj s) - 1) mod len_BAUDRATES
         /\ py_getitem BAUDRATES
              (index (obj (Detect_step 106 (PyBytes []) (Detect_step 105 (PyBytes []) s))))
            = Some rate
         /\ serial (obj (Detect_step 106 (PyBytes []) (Detect_step 105 (PyBytes []) s)))
            = serial (obj s) ++ [Flush; SetBaudrate rate; Flush]
         /\ clear_counters (frame (Detect_step 106 (PyBytes [])
                                     (Detect_step 105 (PyBytes []) s))) = true.
Proof.
  eexists. split; [reflexivity|].
  apply (C5_timeout_switches_rate "/dev/ttyUSB0" 25 5 None true
           [Main 100 (PyBytes [])] _ (PyBytes []) 105 (PyBytes []) 106 (PyBytes [])).
  - reflexivity.
  - reflexivity.
  - left. reflexivity.
Defined.

(** ** After a rate switch *)

(** A step that changes what was done to the channel is a rate switch:
    line 194 in automatic mode, or a key of the listener, which only runs
    in manual mode, where the counters are zero throughout. *)
Lemma switch_cleared_or_clearing (s : state) (e : event) :
  Inv s ->
  serial (obj (step s e)) <> serial (obj s) ->
  cleared_or_clearing (step s e).
Proof.
  intros HI Hs. destruct s as [self l p]. destruct e as [now rd|c];
    cbn [step obj] in *.
  - unfold Detect_step in *. cbn [obj frame pc] in *.
    destruct p as [|byte| | | |how|how v|];
      try (exfalso; apply Hs; reflexivity).
    + exfalso. apply Hs. destruct (truthy byte); [|reflexivity].
      destruct (detection_satisfied self (classify self byte l));
        [|destruct (now - start_time (classify self byte l) >=? timeout self)];
        reflexivity.
    + destruct (timed_out l && auto_detect self);
        [|exfalso; apply Hs; reflexivity].
      destruct (NextBaudrate_Some (-1) self) as [rate [_ [_ E]]].
      rewrite E. right. split; reflexivity.
    + exfalso. apply Hs. destruct (clear_counters l); reflexivity.
    + exfalso. apply Hs. destruct (ctlc self); reflexivity.
    + exfalso. apply Hs.
      destruct (py_getitem BAUDRATES (index self)); reflexivity.
  - unfold HandleKeypress_step in *. cbn [obj frame pc] in *.
    destruct (thread self && negb (ctlc self)) eqn:Ea;
      [|exfalso; apply Hs; reflexivity].
    apply andb_true_iff in Ea. destruct Ea as [Eth _].
    pose proof (inv_thread _ HI) as Ht. cbn [obj] in Ht.
    rewrite Eth in Ht.
    assert (Hz : zero4 l).
    { apply (inv_manual _ HI). cbn [obj]. now destruct (auto_detect self). }
    left.
    destruct (HandleKeypress_key c self); cbn [frame]; exact Hz.
Qed.

Lemma cleared_or_clearing_step (s : state) (e : event) :
  cleared_or_clearing s -> classifies s e = false ->
  cleared_or_clearing (step s e).
Proof.
  intros HQ Hc. destruct s as [self l p]. unfold cleared_or_clearing in *.
  cbn [obj frame pc] in *. destruct e as [now rd|c]; cbn [step].
  - unfold classifies in Hc. cbn [pc] in Hc.
    unfold Detect_step. cbn [obj frame pc].
    destruct p as [|byte| | | |how|how v|];
      try (destruct HQ as [Hz|[Hp _]]; [|discriminate]).
    + left. now destruct (start_time l =? 0).
    + rewrite Hc. left. exact Hz.
    + left. destruct (timed_out l && auto_detect self); [|exact Hz].
      destruct (NextBaudrate (-1) self); exact Hz.
    + destruct HQ as [Hz|[_ Hcl]].
      * left. destruct (clear_counters l); [repeat split | exact Hz].
      * rewrite Hcl. left. repeat split.
    + left. now destruct (ctlc self).
    + left. now destruct (py_getitem BAUDRATES (index self)).
    + left. exact Hz.
    + left. exact Hz.
  - unfold HandleKeypress_step. cbn [obj frame pc].
    destruct (thread self && negb (ctlc self)); [|exact HQ].
    destruct (HandleKeypress_key c self); cbn [frame pc]; exact HQ.
Qed.

Lemma cleared_or_clearing_run (evs : list event) (s : state) :
  cleared_or_clearing s -> none_classified evs s = true ->
  cleared_or_clearing (run evs s).
Proof.
  revert s. induction evs as [|e evs IH]; intros s HQ Hn; [exact HQ|].
  cbn [none_classified] in Hn. apply andb_true_iff in Hn.
  destruct Hn as [Hc Hn]. apply negb_true_iff in Hc.
  cbn [run fold_left]. apply IH; [|exact Hn].
  now apply cleared_or_clearing_step.
Qed.

(** C3. Take any run, a step [e] of it that switched the rate (the main
    thread's line 194, or a key handled by the listener), and any further
    steps [evs2] none of which classifies a byte: if the next step [e']
    classifies a byte, the four counters are zero at that point. *)
Theorem C3_counters_zero_after_switch :
  forall prt thr tmo nm auto vb evs1 s1 e evs2 e',
    after prt thr tmo nm auto vb evs1 = Some s1 ->
    serial (obj (step s1 e)) <> serial (obj s1) ->
    none_classified evs2 (step s1 e) = true ->
    classifies (run evs2 (step s1 e)) e' = true ->
    count (frame (run evs2 (step s1 e))) = 0
    /\ whitespace (frame (run evs2 (step s1 e))) = 0
    /\ punctuation (frame (run evs2 (step s1 e))) = 0
    /\ vowels (frame (run evs2 (step s1 e))) = 0.
Proof.
  intros prt thr tmo nm auto vb evs1 s1 e evs2 e' E Hsw Hn Hc.
  destruct (after_Inv prt thr tmo nm auto vb evs1) as [s' [E' [HI _]]].
  rewrite E in E'. injection E' as <-.
  pose proof (switch_cleared_or_clearing s1 e HI Hsw) as HQ.
  apply cleared_or_clearing_run with (evs := evs2) in HQ; [|exact Hn].
  destruct HQ as [Hz|[Hp _]]; [exact Hz|].
  unfold classifies in Hc. rewrite Hp in Hc. destruct e'; discriminate.
Qed.

Lemma C3_counters_zero_after_switch_witness :
  exists s1,
    after "/dev/ttyUSB0" 25 5 None true false
      [Main 100 (PyStr "a"); Main 101 (PyBytes []); Main 101 (PyBytes []);
       Main 101 (PyBytes []); Main 101 (PyBytes []); Main 102 (PyBytes []);
       Main 102 (PyBytes [])] = Some s1
    /\ count (frame s1) = 1
    /\ (count (frame (run [Main 103 (PyBytes []); Main 103 (PyBytes []);
                           Main 104 (PyStr "e")]
                        (step s1 (Main 103 (PyBytes []))))) = 0
        /\ whitespace (frame (run [Main 103 (PyBytes []); Main 103 (PyBytes []);
                                   Main 104 (PyStr "e")]
                                (step s1 (Main 103 (PyBytes []))))) = 0
        /\ punctuation (frame (run [Main 103 (PyBytes []); Main 103 (PyBytes []);
                                    Main 104 (PyStr "e")]
                                 (step s1 (Main 103 (PyBytes []))))) = 0
        /\ vowels (frame (run [Main 103 (PyBytes []); Main 103 (PyBytes []);
                               Main 104 (PyStr "e")]
                            (step s1 (Main 103 (PyBytes []))))) = 0).
Proof.
  eexists. split; [reflexivity|]. split; [reflexivity|].
  apply (C3_counters_zero_after_switch "/dev/ttyUSB0" 25 5 None true false
           [Main 100 (PyStr "a"); Main 101 (PyBytes []); Main 101 (PyBytes []);
            Main 101 (PyBytes []); Main 101 (PyBytes []); Main 102 (PyBytes []);
            Main 102 (PyBytes [])]
           _ (Main 103 (PyBytes []))
           [Main 103 (PyBytes []); Main 103 (PyBytes []); Main 104 (PyStr "e")]
           (Main 105 (PyBytes []))).
  - reflexivity.
  - intros H. vm_compute in H. discriminate H.
  - reflexivity.
  - reflexivity.
Defined.

(** ** Cancellation *)

Lemma cancelling_step (i0 : Z) (r0 : string) (s : state) (e : event) :
  py_getitem BAUDRATES i0 = Some r0 ->
  cancelling i0 r0 s ->
  cancelling i0 r0 (step s e)
  /\ statements_left (pc (step s e)) =
     match e with
     | Main _ _ => Nat.pred (statements_left (pc s))
     | Key _ => statements_left (pc s)
     end.
Proof.
  intros Hr [Hc [Ha [Hz [Hi Hp]]]]. destruct s as [self l p].
  cbn [obj frame pc] in *. unfold cancelling, zero4.
  destruct Hz as [Hz1 [Hz2 [Hz3 Hz4]]].
  destruct e as [now rd|c]; cbn [step].
  - unfold Detect_step. cbn [obj frame pc].
    destruct p as [|byte| | | |how|how v|].
    + destruct (start_time l =? 0);
        cbn [obj frame pc statements_left Nat.pred count whitespace
             punctuation vowels]; auto 10.
    + destruct (truthy byte).
      * rewrite (classify_manual _ _ _ Ha).
        rewrite detection_needs_whitespace by exact Hz2.
        cbn [start_time].
        destruct (now - start_time l >=? timeout self);
          cbn [obj frame pc statements_left Nat.pred count whitespace
               punctuation vowels]; auto 10.
      * cbn [obj frame pc statements_left Nat.pred count whitespace
             punctuation vowels]; auto 10.
    + rewrite Ha, andb_false_r.
      cbn [obj frame pc statements_left Nat.pred]; auto 10.
    + destruct (clear_counters l);
        cbn [obj frame pc statements_left Nat.pred count whitespace
             punctuation vowels]; auto 10.
    + rewrite Hc. cbn [obj frame pc statements_left Nat.pred]; auto 10.
    + rewrite Hi, Hr. cbn [obj frame pc statements_left Nat.pred]; auto 10.
    + cbn [obj frame pc statements_left Nat.pred]; auto 10.
    + contradiction.
  - unfold HandleKeypress_step. cbn [obj frame pc]. rewrite Hc.
    rewrite andb_false_r. cbn [obj frame pc]. auto 10.
Qed.

Lemma cancelling_run (i0 : Z) (r0 : string) (evs : list event) (s : state) :
  py_getitem BAUDRATES i0 = Some r0 ->
  cancelling i0 r0 s ->
  cancelling i0 r0 (run evs s)
  /\ statements_left (pc (run evs s)) =
     (statements_left (pc s) - main_steps evs)%nat.
Proof.
  intros Hr. revert s. induction evs as [|e evs IH]; intros s H.
  - cbn [run fold_left main_steps]. split; [exact H | lia].
  - destruct (cancelling_step i0 r0 s e Hr H) as [H1 H2].
    destruct (IH _ H1) as [G1 G2]. cbn [run fold_left].
    split; [exact G1|]. unfold run in G2. rewrite G2, H2.
    destruct e; cbn [main_steps]; lia.
Qed.

(** C2, as the code has it. Once the cancellation flag is set in a run,
    [Detect] returns after at most six more statements of the main thread
    (the rest of the current pass, the test of the flag, the [return]),
    through the cancellation [break]; what it returns is the rate at the
    cursor, [self.BAUDRATES[self.index]], as a detection does. *)
Theorem C2_cancel_returns_rate_at_cursor :
  forall prt thr tmo nm auto vb evs1 s1 evs2,
    after prt thr tmo nm auto vb evs1 = Some s1 ->
    ctlc (obj s1) = true ->
    (6 <= main_steps evs2)%nat ->
    exists rate,
      py_getitem BAUDRATES (index (obj s1)) = Some rate
      /\ In rate BAUDRATES
      /\ after prt thr tmo nm auto vb (evs1 ++ evs2)
         = Some (run evs2 s1)
      /\ pc (run evs2 s1) = Returned Cancelled (PyStr rate).
Proof.
  intros prt thr tmo nm auto vb evs1 s1 evs2 E Hc Hn.
  destruct (after_Inv prt thr tmo nm auto vb evs1) as [s' [E' [HI _]]].
  rewrite E in E'. injection E' as <-.
  destruct (py_getitem_in_range _ BAUDRATES (index (obj s1)))
    as [rate [Hr HIn]]; [exact (inv_index s1 HI)|].
  exists rate. split; [exact Hr|]. split; [exact HIn|].
  split; [now apply after_app|].
  pose proof (inv_ctlc s1 HI Hc) as Ha.
  pose proof (inv_manual s1 HI Ha) as Hz.
  assert (Hnd : detection_satisfied (obj s1) (frame s1) = false).
  { apply detection_needs_whitespace. now destruct Hz as [_ [? _]]. }
  assert (HK : cancelling (index (obj s1)) rate s1).
  { unfold cancelling. repeat split; try assumption; try apply Hz.
    pose proof (inv_pc s1 HI) as Hp. unfold pc_ok in Hp.
    destruct (pc s1) as [|byte| | | |[|]|[|] v|]; try exact I;
      try congruence; try reflexivity.
    - destruct Hp. congruence.
    - destruct Hp as [_ [r [-> Hr']]]. split; [reflexivity|]. congruence. }
  destruct (cancelling_run _ _ evs2 s1 Hr HK) as [[_ [_ [_ [_ Hp]]]] Hleft].
  assert (H0 : statements_left (pc (run evs2 s1)) = 0%nat).
  { rewrite Hleft. destruct (pc s1); cbn [statements_left]; lia. }
  destruct (pc (run evs2 s1)) as [|byte| | | |how|how v|];
    try discriminate H0; [|contradiction].
  destruct Hp as [-> ->]. reflexivity.
Qed.

Lemma C2_cancel_returns_rate_at_cursor_witness :
  exists s1,
    after "/dev/ttyUSB0" 25 5 None false true
      [Main 100 (PyBytes [x61]); Key "u"; Key (String "003" EmptyString)]
    = Some s1
    /\ exists rate,
         py_getitem BAUDRATES (index (obj s1)) = Some rate
         /\ In rate BAUDRATES
         /\ after "/dev/ttyUSB0" 25 5 None false true
              ([Main 100 (PyBytes [x61]); Key "u";
                Key (String "003" EmptyString)]
               ++ reading (PyBytes []) [101; 102; 103; 104; 105; 106])
            = Some (run (reading (PyBytes []) [101; 102; 103; 104; 105; 106]) s1)
         /\ pc (run (reading (PyBytes []) [101; 102; 103; 104; 105; 106]) s1)
            = Returned Cancelled (PyStr rate).
Proof.
  eexists. split; [reflexivity|].
  apply (C2_cancel_returns_rate_at_cursor "/dev/ttyUSB0" 25 5 None false true
           [Main 100 (PyBytes [x61]); Key "u";
            Key (String "003" EmptyString)]
           _ (reading (PyBytes []) [101; 102; 103; 104; 105; 106])).
  - reflexivity.
  - reflexivity.
  - cbn. lia.
Defined.

(** C2, as the claim has it, fails: in manual mode the interrupt key sets
    the flag, [Detect] leaves its loop through the cancellation [break],
    and the value it returns is the rate ["3686400"], not [None]. *)
Lemma C2_cancelled_run_returns_a_rate :
  option_map pc
    (after "/dev/ttyUSB0" 25 5 None false true
       (Key (String "003" EmptyString)
        :: reading (PyBytes []) [101; 102; 103; 104; 105; 106]))
  = Some (Returned Cancelled (PyStr "3686400"))
  /\ PyStr "3686400" <> PyNone
  /\ In "3686400" BAUDRATES.
Proof.
  split; [reflexivity|]. split; [discriminate|].
  unfold BAUDRATES. repeat (first [left; reflexivity | right]).
Qed.

(** ** More on the catalog cursor *)

Lemma advance_up_down (n i : Z) :
  0 < n -> 0 <= i < n -> advance n (advance n i 1) (-1) = i.
Proof.
  intros Hn Hi. unfold advance.
  destruct (i + 1 >=? n) eqn:E1; zbool.
  - destruct (0 + -1 >=? n) eqn:E2; zbool; [lia|].
    destruct (0 + -1 <? 0) eqn:E3; zbool; lia.
  - destruct (i + 1 <? 0) eqn:E2; zbool; [lia|].
    destruct (i + 1 + -1 >=? n) eqn:E3; zbool; [lia|].
    destruct (i + 1 + -1 <? 0) eqn:E4; zbool; lia.
Qed.

Lemma advance_down_up (n i : Z) :
  0 < n -> 0 <= i < n -> advance n (advance n i (-1)) 1 = i.
Proof.
  intros Hn Hi. unfold advance.
  destruct (i + -1 >=? n) eqn:E1; zbool; [lia|].
  destruct (i + -1 <? 0) eqn:E2; zbool.
  - destruct (n - 1 + 1 >=? n) eqn:E3; zbool; lia.
  - destruct (i + -1 + 1 >=? n) eqn:E3; zbool; [lia|].
    destruct (i + -1 + 1 <? 0) eqn:E4; zbool; lia.
Qed.

(** X1. On an opened object with the cursor on the catalog,
    [NextBaudrate(1)] followed by [NextBaudrate(-1)], and
    [NextBaudrate(-1)] followed by [NextBaudrate(1)], bring the cursor
    back where it was, also across the two ends, and the rate the second
    call sets on the channel is the rate at that cursor. *)
Theorem X1_up_and_down_cancel (self : Baudrate) :
  opened self = true ->
  0 <= index self < len_BAUDRATES ->
  exists rate up back down forth,
    py_getitem BAUDRATES (index self) = Some rate
    /\ NextBaudrate 1 self = Some up
    /\ NextBaudrate (-1) up = Some back
    /\ index back = index self
    /\ (exists pre, serial back = pre ++ [Flush; SetBaudrate rate; Flush])
    /\ NextBaudrate (-1) self = Some down
    /\ NextBaudrate 1 down = Some forth
    /\ index forth = index self
    /\ (exists pre, serial forth = pre ++ [Flush; SetBaudrate rate; Flush]).
Proof.
  intros _ Hi. assert (Hn : 0 < len_BAUDRATES) by reflexivity.
  destruct (py_getitem_in_range _ BAUDRATES (index self) Hi) as [rate [Er _]].
  destruct (NextBaudrate_Some 1 self) as [r1 [_ [_ E1]]].
  destruct (NextBaudrate_Some (-1) self) as [r2 [_ [_ E2]]].
  match type of E1 with _ = Some ?u =>
    destruct (NextBaudrate_Some (-1) u) as [r3 [Er3 [_ E3]]] end.
  match type of E2 with _ = Some ?d =>
    destruct (NextBaudrate_Some 1 d) as [r4 [Er4 [_ E4]]] end.
  cbn [index] in Er3, Er4.
  rewrite advance_up_down in Er3 by assumption.
  rewrite advance_down_up in Er4 by assumption.
  assert (r3 = rate) by congruence. assert (r4 = rate) by congruence.
  subst r3 r4.
  exists rate. do 4 eexists.
  split; [exact Er|]. split; [exact E1|]. split; [exact E3|].
  split; [cbn [index]; now apply advance_up_down|].
  split; [eexists; reflexivity|].
  split; [exact E2|]. split; [exact E4|].
  split; [cbn [index]; now apply advance_down_up|].
  eexists; reflexivity.
Qed.

Lemma X1_up_and_down_cancel_witness :
  exists self,
    Open (__init__ "/dev/ttyUSB0" 25 5 None true false) = Some self
    /\ exists rate up back down forth,
         py_getitem BAUDRATES (index self) = Some rate
         /\ NextBaudrate 1 self = Some up
         /\ NextBaudrate (-1) up = Some back
         /\ index back = index self
         /\ (exists pre, serial back = pre ++ [Flush; SetBaudrate rate; Flush])
         /\ NextBaudrate (-1) self = Some down
         /\ NextBaudrate 1 down = Some forth
         /\ index forth = index self
         /\ (exists pre,
               serial forth = pre ++ [Flush; SetBaudrate rate; Flush]).
Proof.
  eexists. split; [reflexivity|].
  apply X1_up_and_down_cancel.
  - reflexivity.
  - cbn. lia.
Defined.

(** X2. [NextBaudrate(updn)] is a cyclic move of the cursor, the cursor
    taken modulo the length of the catalog, for [updn] in [-1, 0, 1] and
    for no other integer: a larger step that overshoots an end lands on
    that end's wrap target ([0] or the last index), whatever the
    overshoot. *)
Theorem X2_cyclic_only_for_single_steps (updn : Z) :
  (forall self,
      0 <= index self < len_BAUDRATES ->
      exists self',
        NextBaudrate updn self = Some self'
        /\ index self' = (index self + updn) mod len_BAUDRATES)
  <-> -1 <= updn <= 1.
Proof.
  assert (Hn : 0 < len_BAUDRATES) by reflexivity.
  split.
  - intros H.
    assert (At : forall i, 0 <= i < 34 ->
                   advance 34 i updn = (i + updn) mod 34).
    { intros i Hi.
      destruct (H (mkBaudrate "" 0 0 None true true i [] false false []))
        as [self' [E Hidx]]; [cbn [index]; rewrite len_BAUDRATES_eq; lia|].
      destruct (NextBaudrate_Some updn
                  (mkBaudrate "" 0 0 None true true i [] false false []))
        as [rate [_ [_ E']]].
      rewrite E' in E. injection E as <-. cbn [index] in Hidx.
      rewrite len_BAUDRATES_eq in Hidx. exact Hidx. }
    destruct (Z_lt_le_dec updn (-1)) as [Hlo|Hlo].
    + pose proof (At 0 ltac:(lia)) as A0. pose proof (At 1 ltac:(lia)) as A1.
      unfold advance in A0, A1.
      destruct (0 + updn >=? 34) eqn:E1; zbool; [lia|].
      destruct (0 + updn <? 0) eqn:E2; zbool; [|lia].
      destruct (1 + updn >=? 34) eqn:E3; zbool; [lia|].
      destruct (1 + updn <? 0) eqn:E4; zbool; [|lia].
      assert (B : (1 + updn) mod 34 = (1 + (0 + updn) mod 34) mod 34)
        by (rewrite Zplus_mod_idemp_r; f_equal; lia).
      rewrite <- A0, <- A1 in B. cbn in B. discriminate B.
    + destruct (Z_le_gt_dec updn 1) as [Hhi|Hhi]; [lia|].
      pose proof (At 33 ltac:(lia)) as A0. pose proof (At 32 ltac:(lia)) as A1.
      unfold advance in A0, A1.
      destruct (33 + updn >=? 34) eqn:E1; zbool; [|lia].
      destruct (32 + updn >=? 34) eqn:E3; zbool; [|lia].
      assert (B : (33 + updn) mod 34 = (1 + (32 + updn) mod 34) mod 34)
        by (rewrite Zplus_mod_idemp_r; f_equal; lia).
      rewrite <- A0, <- A1 in B. cbn in B. discriminate B.
  - intros Hu self Hi.
    destruct (NextBaudrate_Some updn self) as [rate [_ [_ E]]].
    eexists. split; [exact E|]. cbn [index].
    assert (updn = -1 \/ updn = 0 \/ updn = 1) as [->|[->| ->]] by lia.
    + now apply advance_down.
    + rewrite advance_zero, Z.add_0_r by assumption.
      symmetry. apply Z.mod_small. assumption.
    + now apply advance_up.
Qed.

(** ** The channel, the cursor and the value returned *)

(** X3. In every state of every run, in either mode, the operations the
    channel saw last are a flush, the setting of the rate at the cursor,
    and a flush: the channel is never left at a rate other than
    [self.BAUDRATES[self.index]]. *)
Theorem X3_channel_rate_is_cursor_rate :
  forall prt thr tmo nm auto vb evs,
    exists s pre rate,
      after prt thr tmo nm auto vb evs = Some s
      /\ py_getitem BAUDRATES (index (obj s)) = Some rate
      /\ serial (obj s) = pre ++ [Flush; SetBaudrate rate; Flush].
Proof.
  intros prt thr tmo nm auto vb evs.
  destruct (after_Inv prt thr tmo nm auto vb evs) as [s [E [HI _]]].
  destruct (inv_serial s HI) as [pre [rate [Hs Hr]]].
  exists s, pre, rate. auto.
Qed.

(** X4. Whenever [Detect] has returned, through either [break], the
    value is a [str], a rate of the catalog: the one at the cursor, which
    is the one the channel was last set to. It never returns [None], and
    never raises [IndexError]. *)
Theorem X4_returned_value_is_channel_rate :
  forall prt thr tmo nm auto vb evs,
    exists s,
      after prt thr tmo nm auto vb evs = Some s
      /\ pc s <> Raised
      /\ forall how v,
           pc s = Returned how v ->
           exists rate pre,
             v = PyStr rate
             /\ In rate BAUDRATES
             /\ py_getitem BAUDRATES (index (obj s)) = Some rate
             /\ serial (obj s) = pre ++ [Flush; SetBaudrate rate; Flush].
Proof.
  intros prt thr tmo nm auto vb evs.
  destruct (after_Inv prt thr tmo nm auto vb evs) as [s [E [HI _]]].
  exists s. split; [exact E|].
  pose proof (inv_pc s HI) as Hp. unfold pc_ok in Hp.
  split; [intros Hr; rewrite Hr in Hp; exact Hp|].
  intros how v Hr. rewrite Hr in Hp.
  destruct (inv_serial s HI) as [pre [rate [Hs Hrate]]].
  assert (Hv : exists r, v = PyStr r
                         /\ py_getitem BAUDRATES (index (obj s)) = Some r)
    by (destruct how; destruct Hp as [_ Hp]; exact Hp).
  destruct Hv as [r [-> Hr']].
  assert (r = rate) by congruence. subst r.
  exists rate, pre. split; [reflexivity|]. split; [|auto].
  destruct (py_getitem_in_range _ BAUDRATES (index (obj s)) (inv_index s HI))
    as [x [Ex HIn]].
  congruence.
Qed.

(** ** Keys *)

Lemma Detect_step_shared (now : Z) (rd : pyval) (s : state) :
  thread (obj (Detect_step now rd s)) = thread (obj s)
  /\ ctlc (obj (Detect_step now rd s)) = ctlc (obj s).
Proof.
  destruct s as [self l p]. unfold Detect_step. cbn [obj frame pc].
  destruct p as [|byte| | | |how|how v|]; cbn [obj]; auto.
  - destruct (truthy byte); [|cbn [obj]; auto].
    destruct (detection_satisfied self (classify self byte l));
      [|destruct (now - start_time (classify self byte l) >=? timeout self)];
      cbn [obj]; auto.
  - destruct (timed_out l && auto_detect self); [|cbn [obj]; auto].
    destruct (NextBaudrate_Some (-1) self) as [rate [_ [_ E]]]. rewrite E.
    cbn [obj thread ctlc]. auto.
  - destruct (clear_counters l); cbn [obj]; auto.
  - destruct (ctlc self) eqn:Ec; cbn [obj]; auto.
  - destruct (py_getitem BAUDRATES (index self)); cbn [obj]; auto.
Qed.

Lemma HandleKeypress_step_idle (c : string) (s : state) :
  thread (obj s) = false \/ ctlc (obj s) = true ->
  HandleKeypress_step c s = s.
Proof.
  intros H. unfold HandleKeypress_step.
  destruct H as [-> | ->]; [reflexivity | now rewrite andb_false_r].
Qed.

Lemma run_without_listener (evs : list event) (s : state) :
  thread (obj s) = false -> run evs s = run (main_only evs) s.
Proof.
  revert s. induction evs as [|[now rd|c] evs IH]; intros s Ht;
    [reflexivity| |].
  - cbn [main_only run fold_left step]. apply IH.
    now rewrite (proj1 (Detect_step_shared now rd s)).
  - cbn [main_only run fold_left step].
    rewrite HandleKeypress_step_idle by (now left). now apply IH.
Qed.

(** X5. In automatic mode no listener is started, so no key has any
    effect on [Detect]: a run reaches the state it reaches with its keys
    left out; the Up and Down keys do not move the cursor and the
    interrupt character does not set the cancellation flag. *)
Theorem X5_automatic_mode_ignores_keys :
  forall prt thr tmo nm vb evs,
    after prt thr tmo nm true vb evs
    = after prt thr tmo nm true vb (main_only evs).
Proof.
  intros prt thr tmo nm vb evs. rewrite !after_eq. f_equal.
  now apply run_without_listener.
Qed.

Lemma eqb_interrupt_not_arrow (c : string) :
  String.eqb c interrupt_key = true ->
  py_in (PyStr c) UPKEYS = false /\ py_in (PyStr c) DOWNKEYS = false.
Proof. intros H. apply String.eqb_eq in H. subst c. split; reflexivity. Qed.

Lemma listener_ctlc (evs : list event) (s : state) :
  thread (obj s) = true ->
  ctlc (obj (run evs s)) = ctlc (obj s) || interrupt_pressed evs.
Proof.
  revert s. induction evs as [|[now rd|c] evs IH]; intros s Ht.
  - cbn. now rewrite orb_false_r.
  - cbn [run fold_left step interrupt_pressed].
    destruct (Detect_step_shared now rd s) as [H1 H2].
    unfold run in IH. rewrite IH by congruence. now rewrite H2.
  - cbn [run fold_left step interrupt_pressed]. unfold run in IH.
    unfold HandleKeypress_step. rewrite Ht. cbn [andb].
    destruct (ctlc (obj s)) eqn:Ec; cbn [negb].
    + rewrite IH by exact Ht. rewrite Ec. reflexivity.
    + unfold HandleKeypress_key. fold interrupt_key.
      destruct (String.eqb c interrupt_key) eqn:Ek.
      * destruct (eqb_interrupt_not_arrow c Ek) as [-> ->].
        cbn [py_eq]. rewrite Ek.
        rewrite IH by (cbn [obj set_ctlc thread]; exact Ht).
        reflexivity.
      * cbn [orb py_eq]. rewrite Ek.
        destruct (py_in (PyStr c) UPKEYS);
          [|destruct (py_in (PyStr c) DOWNKEYS)].
        -- destruct (NextBaudrate_Some 1 (obj s)) as [rate [_ [_ E]]].
           rewrite E. rewrite IH by (cbn [obj thread]; exact Ht).
           cbn [obj ctlc]. now rewrite Ec.
        -- destruct (NextBaudrate_Some (-1) (obj s)) as [rate [_ [_ E]]].
           rewrite E. rewrite IH by (cbn [obj thread]; exact Ht).
           cbn [obj ctlc]. now rewrite Ec.
        -- rewrite IH by (cbn [obj]; exact Ht). cbn [obj]. now rewrite Ec.
Qed.

(** X6. The cancellation flag is set in a state of a run exactly when the
    run is in manual mode and one of its keys was the interrupt character
    ['\x03']; so the flag is never reset, and a [Detect] that has
    returned in manual mode was ended by that key. *)
Theorem X6_flag_set_by_interrupt_key_only :
  forall prt thr tmo nm auto vb evs,
    exists s,
      after prt thr tmo nm auto vb evs = Some s
      /\ ctlc (obj s) = negb auto && interrupt_pressed evs
      /\ (auto = false ->
          forall how v, pc s = Returned how v ->
                        how = Cancelled /\ interrupt_pressed evs = true).
Proof.
  intros prt thr tmo nm auto vb evs.
  destruct (after_Inv prt thr tmo nm auto vb evs) as [s [E [HI [Ha _]]]].
  exists s. split; [exact E|].
  assert (Hc : ctlc (obj s) = negb auto && interrupt_pressed evs).
  { destruct auto.
    - cbn [negb andb]. destruct (ctlc (obj s)) eqn:Ec; [|reflexivity].
      pose proof (inv_ctlc s HI Ec). congruence.
    - rewrite after_eq in E. injection E as <-.
      rewrite listener_ctlc by reflexivity. reflexivity. }
  split; [exact Hc|].
  intros -> how v Hr. cbn [negb andb] in Hc.
  pose proof (inv_pc s HI) as Hp. unfold pc_ok in Hp. rewrite Hr in Hp.
  pose proof (inv_manual s HI Ha) as Hz.
  assert (Hnd : detection_satisfied (obj s) (frame s) = false).
  { apply detection_needs_whitespace. now destruct Hz as [_ [? _]]. }
  destruct how; destruct Hp as [Hp _]; [congruence|].
  split; [reflexivity | congruence].
Qed.

Lemma Detect_step_manual (now : Z) (rd : pyval) (s : state) :
  auto_detect (obj s) = false -> obj (Detect_step now rd s) = obj s.
Proof.
  intros Ha. destruct s as [self l p]. cbn [obj] in Ha.
  unfold Detect_step. cbn [obj frame pc].
  destruct p as [|byte| | | |how|how v|]; cbn [obj]; auto.
  - destruct (truthy byte); [|reflexivity].
    destruct (detection_satisfied self (classify self byte l));
      [|destruct (now - start_time (classify self byte l) >=? timeout self)];
      reflexivity.
  - rewrite Ha, andb_false_r. reflexivity.
  - destruct (clear_counters l); reflexivity.
  - destruct (ctlc self); reflexivity.
  - destruct (py_getitem BAUDRATES (index self)); reflexivity.
Qed.

Lemma HandleKeypress_step_obj (c : string) (s : state) :
  obj (HandleKeypress_step c s)
  = obj (HandleKeypress_step c (mkState (obj s) (mkLocals 0 0 0 0 0 false false)
                                  AtRead))
  /\ auto_detect (obj (HandleKeypress_step c s)) = auto_detect (obj s).
Proof.
  unfold HandleKeypress_step. cbn [obj frame pc].
  destruct (thread (obj s) && negb (ctlc (obj s))); [|split; reflexivity].
  unfold HandleKeypress_key.
  destruct (py_in (PyStr c) UPKEYS);
    [|destruct (py_in (PyStr c) DOWNKEYS);
      [|destruct (py_eq (PyStr c) (PyStr (String "003" EmptyString)))]].
  - destruct (NextBaudrate_Some 1 (obj s)) as [rate [_ [_ E]]]. rewrite E.
    split; reflexivity.
  - destruct (NextBaudrate_Some (-1) (obj s)) as [rate [_ [_ E]]]. rewrite E.
    split; reflexivity.
  - split; reflexivity.
  - split; reflexivity.
Qed.

Lemma manual_obj_by_keys (evs : list event) (s s' : state) :
  auto_detect (obj s) = false -> obj s' = obj s ->
  obj (run evs s) = obj (run (keys_only evs) s').
Proof.
  revert s s'. induction evs as [|[now rd|c] evs IH]; intros s s' Ha Ho.
  - symmetry. exact Ho.
  - cbn [keys_only run fold_left step]. apply IH.
    + now rewrite Detect_step_manual.
    + now rewrite Detect_step_manual.
  - cbn [keys_only run fold_left step]. apply IH.
    + now rewrite (proj2 (HandleKeypress_step_obj c s)).
    + rewrite (proj1 (HandleKeypress_step_obj c s')),
        (proj1 (HandleKeypress_step_obj c s)). now rewrite Ho.
Qed.

(** X7. In manual mode the main thread never changes the object: after
    any run the cursor, the cancellation flag and everything done to the
    channel are what the keys of the run alone make them, whatever was
    read and however long nothing was read. A timeout switches no rate. *)
Theorem X7_manual_mode_object_follows_keys :
  forall prt thr tmo nm vb evs,
    exists s s',
      after prt thr tmo nm false vb evs = Some s
      /\ after prt thr tmo nm false vb (keys_only evs) = Some s'
      /\ obj s = obj s'.
Proof.
  intros prt thr tmo nm vb evs. rewrite !after_eq. do 2 eexists.
  split; [reflexivity|]. split; [reflexivity|].
  now apply manual_obj_by_keys.
Qed.

Lemma manual_cursor (evs : list event) (s : state) :
  auto_detect (obj s) = false -> thread (obj s) = true ->
  0 <= index (obj s) < len_BAUDRATES ->
  index (obj (run evs s))
  = if ctlc (obj s) then index (obj s)
    else (index (obj s) + keys_net evs) mod len_BAUDRATES.
Proof.
  assert (Hn : 0 < len_BAUDRATES) by reflexivity.
  revert s. induction evs as [|[now rd|c] evs IH]; intros s Ha Ht Hi.
  - cbn [run fold_left keys_net]. rewrite Z.add_0_r, Z.mod_small by exact Hi.
    now destruct (ctlc (obj s)).
  - cbn [run fold_left step keys_net]. unfold run in IH.
    pose proof (Detect_step_manual now rd s Ha) as Ho.
    rewrite IH by (rewrite Ho; assumption). now rewrite Ho.
  - cbn [run fold_left step keys_net]. unfold run in IH.
    unfold HandleKeypress_step. rewrite Ht. cbn [andb].
    destruct (ctlc (obj s)) eqn:Ec; cbn [negb].
    + rewrite IH by assumption. now rewrite Ec.
    + unfold HandleKeypress_key. fold interrupt_key.
      destruct (py_in (PyStr c) UPKEYS);
        [|destruct (py_in (PyStr c) DOWNKEYS)].
      * destruct (NextBaudrate_Some 1 (obj s)) as [rate [_ [_ E]]].
        rewrite E.
        rewrite IH; cbn [obj auto_detect thread index ctlc]; try assumption;
          [|now apply advance_in_range].
        rewrite Ec, advance_up by assumption.
        rewrite Zplus_mod_idemp_l. f_equal. lia.
      * destruct (NextBaudrate_Some (-1) (obj s)) as [rate [_ [_ E]]].
        rewrite E.
        rewrite IH; cbn [obj auto_detect thread index ctlc]; try assumption;
          [|now apply advance_in_range].
        rewrite Ec, advance_down by assumption.
        rewrite Zplus_mod_idemp_l. f_equal. lia.
      * cbn [py_eq]. destruct (String.eqb c interrupt_key).
        -- rewrite IH by (cbn [obj set_ctlc auto_detect thread index];
                          assumption).
           cbn [obj set_ctlc ctlc index].
           rewrite Z.add_0_r. symmetry. now apply Z.mod_small.
        -- rewrite IH by (cbn [obj]; assumption). cbn [obj]. now rewrite Ec.
Qed.

(** X8. In manual mode the cursor after a run is the start cursor, the
    last index, moved round the catalog by the Up keys (['u'], ['U'],
    ['A']) minus the Down keys (['d'], ['D'], ['B']) pressed before the
    first interrupt character; every other key, and every key after the
    interrupt character, leaves the cursor alone. *)
Theorem X8_manual_cursor_counts_keys :
  forall prt thr tmo nm vb evs,
    exists s,
      after prt thr tmo nm false vb evs = Some s
      /\ index (obj s) = (33 + keys_net evs) mod 34.
Proof.
  intros prt thr tmo nm vb evs. rewrite after_eq.
  eexists. split; [reflexivity|].
  rewrite manual_cursor; cbn [obj auto_detect thread index ctlc negb];
    try reflexivity.
  rewrite len_BAUDRATES_eq. lia.
Qed.

(** ** The window timer *)

Lemma timed_out_reset_step (s : state) (e : event) :
  timed_out_reset s -> timed_out_reset (step s e).
Proof.
  intros H. destruct (step_config s e) as [Hauto _].
  intros Ha. rewrite Hauto in Ha. specialize (H Ha).
  destruct s as [self l p]. cbn [obj frame pc] in *.
  destruct e as [now rd|c]; cbn [step].
  - unfold Detect_step. cbn [obj frame pc].
    destruct p as [|byte| | | |how|how v|]; cbn [pc frame]; auto.
    + now destruct (start_time l =? 0).
    + destruct (truthy byte); [|exact I].
      destruct (detection_satisfied self (classify self byte l));
        [exact I|].
      destruct (now - start_time (classify self byte l) >=? timeout self);
        exact I.
    + rewrite Ha, andb_true_r. destruct (timed_out l) eqn:Et.
      * destruct (NextBaudrate_Some (-1) self) as [rate [_ [_ E]]].
        rewrite E. reflexivity.
      * exact Et.
    + now destruct (clear_counters l).
    + now destruct (ctlc self).
    + now destruct (py_getitem BAUDRATES (index self)).
  - unfold HandleKeypress_step. cbn [obj frame pc].
    destruct (thread self && negb (ctlc self)); [|exact H].
    destruct (HandleKeypress_key c self); exact H.
Qed.

Lemma timed_out_reset_run (evs : list event) (s : state) :
  timed_out_reset s -> timed_out_reset (run evs s).
Proof.
  revert s. induction evs as [|e evs IH]; intros s H; [exact H|].
  cbn [run fold_left]. apply IH. now apply timed_out_reset_step.
Qed.

(** X9. In automatic mode, a byte that line 171 finds in no list, read
    before the timeout has elapsed, clears the four counters within the
    pass and changes nothing else: the window timer [start_time] keeps
    its value, the cursor stays, and nothing is done to the channel. *)
Theorem X9_rejected_byte_keeps_window :
  forall prt thr tmo nm vb evs s byte t1 r1 t2 r2 t3 r3,
    after prt thr tmo nm true vb evs = Some s ->
    pc s = AtByte byte ->
    truthy byte = true ->
    py_in byte (valid_characters (obj s)) = false ->
    t1 - start_time (frame s) < tmo ->
    pc (run [Main t1 r1; Main t2 r2; Main t3 r3] s) = AtCancel
    /\ (count (frame (run [Main t1 r1; Main t2 r2; Main t3 r3] s)) = 0
        /\ whitespace (frame (run [Main t1 r1; Main t2 r2; Main t3 r3] s)) = 0
        /\ punctuation (frame (run [Main t1 r1; Main t2 r2; Main t3 r3] s)) = 0
        /\ vowels (frame (run [Main t1 r1; Main t2 r2; Main t3 r3] s)) = 0)
    /\ start_time (frame (run [Main t1 r1; Main t2 r2; Main t3 r3] s))
       = start_time (frame s)
    /\ obj (run [Main t1 r1; Main t2 r2; Main t3 r3] s) = obj s.
Proof.
  intros prt thr tmo nm vb evs s byte t1 r1 t2 r2 t3 r3 E Hpc Ht Hrej Hel.
  destruct (after_Inv prt thr tmo nm true vb evs)
    as [s' [E' [HI [Ha [_ Htmo]]]]].
  rewrite E in E'. injection E' as <-.
  assert (HT : timed_out_reset s).
  { rewrite after_eq in E. injection E as <-.
    apply timed_out_reset_run. intros _. reflexivity. }
  specialize (HT Ha). rewrite Hpc in HT.
  pose proof (inv_pc s HI) as Hp. unfold pc_ok in Hp. rewrite Hpc in Hp.
  destruct s as [self l p]. cbn [obj frame pc] in *. subst p.
  assert (Hcl : classify self byte l =
                mkLocals (count l) (whitespace l) (punctuation l) (vowels l)
                  (start_time l) (timed_out l) true).
  { unfold classify. rewrite Hrej, andb_false_r. reflexivity. }
  assert (E1 : Detect_step t1 r1 (mkState self l (AtByte byte))
               = mkState self
                   (mkLocals (count l) (whitespace l) (punctuation l)
                      (vowels l) (start_time l) false true) AtSwitch).
  { unfold Detect_step. cbn [obj frame pc]. rewrite Ht, Hcl.
    replace (detection_satisfied self _) with false by (symmetry; exact Hp).
    cbn [start_time].
    replace (t1 - start_time l >=? timeout self) with false
      by (symmetry; rewrite Z.geb_leb; apply Z.leb_gt; lia).
    rewrite HT. reflexivity. }
  change (run [Main t1 r1; Main t2 r2; Main t3 r3]
            (mkState self l (AtByte byte)))
    with (Detect_step t3 r3
            (Detect_step t2 r2
               (Detect_step t1 r1 (mkState self l (AtByte byte))))).
  rewrite E1. repeat split.
Qed.

Lemma X9_rejected_byte_keeps_window_witness :
  exists s,
    after "/dev/ttyUSB0" 25 5 None true true [Main 100 (PyBytes [xff])]
    = Some s
    /\ pc (run [Main 101 (PyBytes []); Main 101 (PyBytes []);
                Main 101 (PyBytes [])] s) = AtCancel
    /\ (count (frame (run [Main 101 (PyBytes []); Main 101 (PyBytes []);
                           Main 101 (PyBytes [])] s)) = 0
        /\ whitespace (frame (run [Main 101 (PyBytes []); Main 101 (PyBytes []);
                                   Main 101 (PyBytes [])] s)) = 0
        /\ punctuation (frame (run [Main 101 (PyBytes []); Main 101 (PyBytes []);
                                    Main 101 (PyBytes [])] s)) = 0
        /\ vowels (frame (run [Main 101 (PyBytes []); Main 101 (PyBytes []);
                               Main 101 (PyBytes [])] s)) = 0)
    /\ start_time (frame (run [Main 101 (PyBytes []); Main 101 (PyBytes []);
                               Main 101 (PyBytes [])] s))
       = start_time (frame s)
    /\ obj (run [Main 101 (PyBytes []); Main 101 (PyBytes []);
                 Main 101 (PyBytes [])] s) = obj s.
Proof.
  eexists. split; [reflexivity|].
  apply (X9_rejected_byte_keeps_window "/dev/ttyUSB0" 25 5 None true
           [Main 100 (PyBytes [xff])] _ (PyBytes [xff])).
  - reflexivity.
  - reflexivity.
  - reflexivity.
  - reflexivity.
  - cbn. lia.
Defined.

(** X10. On a channel whose non-empty reads are [str] objects, in
    automatic mode with [verbose] off, [count] is in every state of every
    run the number of accepted characters (printable ASCII, space, tab,
    CR, LF) classified since the counters were last cleared; keys and
    empty reads do not change it. *)
Theorem X10_count_of_str_reads :
  forall prt thr tmo nm evs,
    Forall str_read evs ->
    exists s0 s,
      start prt thr tmo nm true false = Some s0
      /\ after prt thr tmo nm true false evs = Some s
      /\ count (frame s) = accepted_since_clear evs s0 0.
Proof.
  intros prt thr tmo nm evs Hall. rewrite start_eq, after_eq.
  do 2 eexists. split; [reflexivity|]. split; [reflexivity|].
  match goal with |- context [run evs ?s0] =>
    pose proof (counting_str_run evs 0 s0) as H end.
  destruct H as [_ [_ [Hc _]]]; [|exact Hall|exact Hc].
  split; [reflexivity|]. split; [reflexivity|].
  split; [reflexivity | exact I].
Qed.

Lemma X10_count_of_str_reads_witness :
  exists s0 s,
    start "/dev/ttyUSB0" 25 5 None true false = Some s0
    /\ after "/dev/ttyUSB0" 25 5 None true false
         [Main 100 (PyStr "h"); Main 100 (PyBytes []);
          Main 100 (PyBytes []); Main 100 (PyBytes []);
          Main 100 (PyBytes []); Main 101 (PyStr "i");
          Main 101 (PyBytes [])] = Some s
    /\ count (frame s)
       = accepted_since_clear
           [Main 100 (PyStr "h"); Main 100 (PyBytes []);
            Main 100 (PyBytes []); Main 100 (PyBytes []);
            Main 100 (PyBytes []); Main 101 (PyStr "i");
            Main 101 (PyBytes [])] s0 0.
Proof.
  apply X10_count_of_str_reads.
  repeat constructor; cbn; intros; try discriminate; eexists; reflexivity.
Defined.

(** ** [MinicomConfig] *)

Lemma step_port (s : state) (e : event) : port (obj (step s e)) = port (obj s).
Proof.
  destruct s as [self l p]. destruct e as [now rd|c]; cbn [step].
  - unfold Detect_step. cbn [obj frame pc].
    destruct p as [|byte| | | |how|how v|]; cbn [obj]; auto.
    + destruct (truthy byte); [|reflexivity].
      destruct (detection_satisfied self (classify self byte l));
        [|destruct (now - start_time (classify self byte l) >=? timeout self)];
        reflexivity.
    + destruct (timed_out l && auto_detect self); [|reflexivity].
      destruct (NextBaudrate_Some (-1) self) as [rate [_ [_ E]]]. rewrite E.
      reflexivity.
    + destruct (clear_counters l); reflexivity.
    + destruct (ctlc self); reflexivity.
    + destruct (py_getitem BAUDRATES (index self)); reflexivity.
  - unfold HandleKeypress_step. cbn [obj frame pc].
    destruct (thread self && negb (ctlc self)); [|reflexivity].
    unfold HandleKeypress_key.
    destruct (py_in (PyStr c) UPKEYS);
      [|destruct (py_in (PyStr c) DOWNKEYS);
        [|destruct (py_eq (PyStr c) (PyStr (String "003" EmptyString)))]].
    + destruct (NextBaudrate_Some 1 self) as [rate [_ [_ E]]]. rewrite E.
      reflexivity.
    + destruct (NextBaudrate_Some (-1) self) as [rate [_ [_ E]]]. rewrite E.
      reflexivity.
    + reflexivity.
    + reflexivity.
Qed.

Lemma run_port (evs : list event) (s : state) :
  port (obj (run evs s)) = port (obj s).
Proof.
  revert s. induction evs as [|e evs IH]; intros s; [reflexivity|].
  cbn [run fold_left]. unfold run in IH. now rewrite IH, step_port.
Qed.

(** What [MinicomConfig] returns when the cursor is on the catalog. *)
Lemma MinicomConfig_cases (nm : option string) (fsys : filesystem)
    (self : Baudrate) (rate : string) :
  py_getitem BAUDRATES (index self) = Some rate ->
  MinicomConfig nm fsys self =
  match match nm with None => name self | Some n => Some n end with
  | Some (String c n) =>
      match fsys ("/etc/minicom/minirc." ++ String c n)%string
              (minicom_config (port self) rate) with
      | None =>
          Some (true, minicom_config (port self) rate,
                [FileWrite ("/etc/minicom/minirc." ++ String c n)%string
                   (minicom_config (port self) rate) None])
      | Some msg =>
          Some (false, minicom_config (port self) rate,
                [FileWrite ("/etc/minicom/minirc." ++ String c n)%string
                   (minicom_config (port self) rate) (Some msg);
                 Stdout ("Error saving minicom config file: " ++ msg ++ nl)])
      end
  | _ => Some (true, minicom_config (port self) rate, [])
  end.
Proof.
  intros Hr. unfold MinicomConfig. rewrite Hr.
  destruct (match nm with None => name self | Some n => Some n end)
    as [[|c n]|]; reflexivity.
Qed.

(** X11. [MinicomConfig] writes a file exactly when the name in effect
    (its argument, or [self.name] when the argument is [None]) is a
    non-empty string, and then to [/etc/minicom/minirc.<name>] and with
    the text it returns; with no name or an empty name it writes nothing
    and reports success; it reports failure exactly when the write
    raised, and then prints the error; the text it returns does not
    depend on the name or on the outcome of the write. *)
Theorem X11_MinicomConfig_saves_under_nonempty_name :
  forall (nm : option string) (fsys : filesystem) (self : Baudrate),
    0 <= index self < len_BAUDRATES ->
    exists rate ok eff,
      py_getitem BAUDRATES (index self) = Some rate
      /\ MinicomConfig nm fsys self
         = Some (ok, minicom_config (port self) rate, eff)
      /\ ((exists path content raised, In (FileWrite path content raised) eff)
          <-> exists n,
                match nm with None => name self | Some n => Some n end
                = Some n
                /\ n <> EmptyString)
      /\ (forall path content raised,
             In (FileWrite path content raised) eff ->
             content = minicom_config (port self) rate
             /\ raised = fsys path content
             /\ exists n,
                  match nm with None => name self | Some n => Some n end
                  = Some n
                  /\ path = ("/etc/minicom/minirc." ++ n)%string)
      /\ (ok = false
          <-> exists path content msg,
                In (FileWrite path content (Some msg)) eff)
      /\ (forall text,
             In (Stdout text) eff ->
             exists path content msg,
               In (FileWrite path content (Some msg)) eff
               /\ text = ("Error saving minicom config file: " ++ msg ++ nl)%string).
Proof.
  intros nm fsys self Hi.
  destruct (py_getitem_in_range _ BAUDRATES (index self) Hi) as [rate [Hr _]].
  rewrite (MinicomConfig_cases nm fsys self rate Hr).
  destruct (match nm with None => name self | Some n => Some n end)
    as [[|c n]|] eqn:En.
  - exists rate, true, []. split; [exact Hr|]. split; [reflexivity|].
    split; [|split; [|split]].
    + split; [intros [? [? [? []]]] | intros [n [E Hne]]; congruence].
    + intros ? ? ? [].
    + split; [discriminate | intros [? [? [? []]]]].
    + intros ? [].
  - destruct (fsys ("/etc/minicom/minirc." ++ String c n)%string
                (minicom_config (port self) rate)) as [msg|] eqn:Ef.
    + do 3 eexists. split; [exact Hr|]. split; [reflexivity|].
      split; [|split; [|split]].
      * split; [intros _; eexists; split; [reflexivity | discriminate]|].
        intros _. do 3 eexists. left. reflexivity.
      * intros path content raised [H|[H|[]]]; [|discriminate].
        injection H as <- <- <-. split; [reflexivity|].
        split; [symmetry; exact Ef|]. eexists. split; reflexivity.
      * split; [intros _; do 3 eexists; left; reflexivity | reflexivity].
      * intros text [H|[H|[]]]; [discriminate|]. injection H as <-.
        do 3 eexists. split; [left; reflexivity | reflexivity].
    + do 3 eexists. split; [exact Hr|]. split; [reflexivity|].
      split; [|split; [|split]].
      * split; [intros _; eexists; split; [reflexivity | discriminate]|].
        intros _. do 3 eexists. left. reflexivity.
      * intros path content raised [H|[]].
        injection H as <- <- <-. split; [reflexivity|].
        split; [symmetry; exact Ef|]. eexists. split; reflexivity.
      * split; [discriminate|]. intros [? [? [? [H|[]]]]]. discriminate.
      * intros text [H|[]]. discriminate.
  - exists rate, true, []. split; [exact Hr|]. split; [reflexivity|].
    split; [|split; [|split]].
    + split; [intros [? [? [? []]]] | intros [n [E Hne]]; congruence].
    + intros ? ? ? [].
    + split; [discriminate | intros [? [? [? []]]]].
    + intros ? [].
Qed.

Lemma X11_MinicomConfig_saves_under_nonempty_name_witness :
  exists rate ok eff,
    py_getitem BAUDRATES
      (index (__init__ "/dev/ttyUSB0" 25 5 (Some "router") true true))
    = Some rate
    /\ MinicomConfig None (fun _ _ => Some "Permission denied")
         (__init__ "/dev/ttyUSB0" 25 5 (Some "router") true true)
       = Some (ok, minicom_config "/dev/ttyUSB0" rate, eff)
    /\ (ok = false
        <-> exists path content msg,
              In (FileWrite path content (Some msg)) eff).
Proof.
  destruct (X11_MinicomConfig_saves_under_nonempty_name None
              (fun _ _ => Some "Permission denied")
              (__init__ "/dev/ttyUSB0" 25 5 (Some "router") true true))
    as [rate [ok [eff [Hr [E [_ [_ [Hok _]]]]]]]].
  - cbn. lia.
  - exists rate, ok, eff. auto.
Defined.

(** X12. When [Detect] has returned in a run, [MinicomConfig] on the
    object does not raise, and the text it returns names the port the
    object was built with and, in its [pu baudrate] line, the rate
    [Detect] returned, whatever the name and the file system. *)
Theorem X12_config_holds_returned_rate :
  forall prt thr tmo nm auto vb evs s how v nm' fsys,
    after prt thr tmo nm auto vb evs = Some s ->
    pc s = Returned how v ->
    exists rate ok eff,
      v = PyStr rate
      /\ MinicomConfig nm' fsys (obj s)
         = Some (ok, minicom_config prt rate, eff)
      /\ minicom_config prt rate
         = (hashes ++ nl
            ++ "# Minicom configuration file - use " ++ dquote
            ++ "minicom -s" ++ dquote ++ " to change parameters." ++ nl
            ++ "pu port             " ++ prt ++ nl
            ++ "pu baudrate         " ++ rate ++ nl
            ++ "pu bits             8" ++ nl
            ++ "pu parity           N" ++ nl
            ++ "pu stopbits         1" ++ nl
            ++ "pu rtscts           No" ++ nl
            ++ hashes ++ nl)%string.
Proof.
  intros prt thr tmo nm auto vb evs s how v nm' fsys E Hpc.
  destruct (after_Inv prt thr tmo nm auto vb evs) as [s' [E' [HI _]]].
  rewrite E in E'. injection E' as <-.
  assert (Hport : port (obj s) = prt).
  { rewrite after_eq in E. injection E as <-. now rewrite run_port. }
  pose proof (inv_pc s HI) as Hp. unfold pc_ok in Hp. rewrite Hpc in Hp.
  assert (Hv : exists r, v = PyStr r
                         /\ py_getitem BAUDRATES (index (obj s)) = Some r)
    by (destruct how; destruct Hp as [_ Hp]; exact Hp).
  destruct Hv as [rate [-> Hr]].
  exists rate. rewrite (MinicomConfig_cases nm' fsys (obj s) rate Hr), Hport.
  destruct (match nm' with None => name (obj s) | Some n => Some n end)
    as [[|c n]|]; [| |].
  - do 2 eexists. split; [reflexivity|]. split; reflexivity.
  - destruct (fsys _ _); do 2 eexists;
      (split; [reflexivity|]; split; reflexivity).
  - do 2 eexists. split; [reflexivity|]. split; reflexivity.
Qed.

Lemma X12_config_holds_returned_rate_witness :
  exists s,
    after "/dev/ttyUSB0" 25 5 None false true
      (Key "d" :: Key interrupt_key
       :: reading (PyBytes []) [1; 2; 3; 4; 5; 6]) = Some s
    /\ exists rate ok eff,
         PyStr "3000000" = PyStr rate
         /\ MinicomConfig (Some "router") (fun _ _ => None) (obj s)
            = Some (ok, minicom_config "/dev/ttyUSB0" rate, eff)
         /\ minicom_config "/dev/ttyUSB0" rate
            = (hashes ++ nl
               ++ "# Minicom configuration file - use " ++ dquote
               ++ "minicom -s" ++ dquote ++ " to change parameters." ++ nl
               ++ "pu port             " ++ "/dev/ttyUSB0" ++ nl
               ++ "pu baudrate         " ++ rate ++ nl
               ++ "pu bits             8" ++ nl
               ++ "pu parity           N" ++ nl
               ++ "pu stopbits         1" ++ nl
               ++ "pu rtscts           No" ++ nl
               ++ hashes ++ nl)%string.
Proof.
  eexists. split; [reflexivity|].
  apply (X12_config_holds_returned_rate "/dev/ttyUSB0" 25 5 None false true
           (Key "d" :: Key interrupt_key
            :: reading (PyBytes []) [1; 2; 3; 4; 5; 6])
           _ Cancelled (PyStr "3000000") (Some "router") (fun _ _ => None)).
  - reflexivity.
  - reflexivity.
Defined.

(** ** [main] *)

Lemma main_unfold (args : Namespace) (w : World) :
  args_baud_rates args = false ->
  main args w =
  match after (args_port args) (args_count args) READ_TIMEOUT (args_name args)
          match args_name args with Some _ => true | None => args_auto args end
          (args_quiet args) (schedule w) with
  | Some s =>
      match pc s with
      | Returned _ (PyStr rate) =>
          Some ([Stdout (nl ++ "Starting baudrate detection on "
                         ++ args_port args
                         ++ ", turn on your serial device now." ++ nl
                         ++ "Press Up/Down to switch baud rates." ++ nl
                         ++ "Press Ctl+C to quit." ++ nl ++ nl);
                 Stdout (nl ++ "Detected baudrate: " ++ rate ++ nl)]
                ++ save_and_run (obj s) (args_name args)
                     match args_name args with Some _ => true | None => false end
                     w
                ++ [SerialClose])
      | _ => None
      end
  | None => None
  end.
Proof.
  intros Hb. unfold main, after. rewrite Hb.
  destruct (args_name args);
    destruct (Open (__init__ _ _ _ _ _ _)); reflexivity.
Qed.

(** Lines 299-316 case by case, the cursor being on the catalog. *)
Lemma save_and_run_cases (baud : Baudrate) (name0 : option string)
    (run0 : bool) (w : World) (rate : string) :
  py_getitem BAUDRATES (index baud) = Some rate ->
  save_and_run baud name0 run0 w =
  match name0 with
  | None =>
      [Stdout (nl ++ "Save minicom configuration as: " ++ " ");
       Stdin (fst (readline (stdin_lines w))); Stdout nl]
  | Some _ => []
  end
  ++
  match match name0 with
        | None => strip (fst (readline (stdin_lines w)))
        | Some n => n
        end with
  | EmptyString => [Stdout (minicom_config (port baud) rate ++ nl)]
  | String c n =>
      match fs w ("/etc/minicom/minirc." ++ String c n)%string
              (minicom_config (port baud) rate) with
      | Some msg =>
          [FileWrite ("/etc/minicom/minirc." ++ String c n)%string
             (minicom_config (port baud) rate) (Some msg);
           Stdout ("Error saving minicom config file: " ++ msg ++ nl);
           Stdout (minicom_config (port baud) rate ++ nl)]
      | None =>
          FileWrite ("/etc/minicom/minirc." ++ String c n)%string
            (minicom_config (port baud) rate) None
          :: (if run0 then []
              else [Stdout "Configuration saved. Run minicom now [n/Y]? ";
                    Stdin (fst (readline
                                  match name0 with
                                  | None => snd (readline (stdin_lines w))
                                  | Some _ => stdin_lines w
                                  end));
                    Stdout nl])
          ++ (if if run0 then true
                 else String.eqb
                        (strip (fst (readline
                                       match name0 with
                                       | None => snd (readline (stdin_lines w))
                                       | Some _ => stdin_lines w
                                       end))) EmptyString
                      || startswith
                           (lower
                              (strip (fst (readline
                                             match name0 with
                                             | None =>
                                                 snd (readline (stdin_lines w))
                                             | Some _ => stdin_lines w
                                             end)))) "y"
              then
                Spawn ["minicom"; String c n] (minicom w (String c n))
                :: match minicom w (String c n) with
                   | Some msg => [Stdout ("Exception: " ++ msg ++ nl)]
                   | None => []
                   end
              else [])
      end
  end.
Proof.
  intros Hr. unfold save_and_run.
  destruct name0 as [n0|].
  - rewrite (MinicomConfig_cases (Some n0) (fs w) baud rate Hr).
    destruct n0 as [|c n]; [reflexivity|].
    destruct (fs w _ _); [reflexivity|].
    destruct run0; [reflexivity|]. cbn [negb truthy andb].
    destruct (readline (stdin_lines w)) as [l ls]. cbn [fst snd].
    rewrite orb_false_r.
    destruct (String.eqb (strip l) EmptyString
              || startswith (lower (strip l)) "y"); reflexivity.
  - destruct (readline (stdin_lines w)) as [l1 ls]. cbn [fst snd].
    rewrite (MinicomConfig_cases (Some (strip l1)) (fs w) baud rate Hr).
    destruct (strip l1) as [|c n]; [reflexivity|].
    destruct (fs w _ _); [reflexivity|].
    destruct run0; [reflexivity|]. cbn [negb truthy andb].
    destruct (readline ls) as [l2 ls2]. cbn [fst snd].
    rewrite orb_false_r.
    destruct (String.eqb (strip l2) EmptyString
              || startswith (lower (strip l2)) "y"); reflexivity.
Qed.

Lemma main_session (args : Namespace) (w : World) (effs : list effect) :
  args_baud_rates args = false ->
  main args w = Some effs ->
  exists baud rate,
    py_getitem BAUDRATES (index baud) = Some rate
    /\ port baud = args_port args
    /\ effs =
       [Stdout (nl ++ "Starting baudrate detection on " ++ args_port args
                ++ ", turn on your serial device now." ++ nl
                ++ "Press Up/Down to switch baud rates." ++ nl
                ++ "Press Ctl+C to quit." ++ nl ++ nl);
        Stdout (nl ++ "Detected baudrate: " ++ rate ++ nl)]
       ++ save_and_run baud (args_name args)
            match args_name args with Some _ => true | None => false end w
       ++ [SerialClose].
Proof.
  intros Hb. rewrite (main_unfold args w Hb).
  destruct (after_Inv (args_port args) (args_count args) READ_TIMEOUT
              (args_name args)
              match args_name args with Some _ => true | None => args_auto args end
              (args_quiet args) (schedule w)) as [s [E [HI _]]].
  rewrite E.
  assert (Hport : port (obj s) = args_port args).
  { rewrite after_eq in E. injection E as <-. now rewrite run_port. }
  pose proof (inv_pc s HI) as Hp. unfold pc_ok in Hp.
  destruct (pc s) as [|byte| | | |how|how v|]; try discriminate.
  assert (Hv : exists r, v = PyStr r
                         /\ py_getitem BAUDRATES (index (obj s)) = Some r)
    by (destruct how; destruct Hp as [_ Hp]; exact Hp).
  destruct Hv as [rate [-> Hr]]. intros H. injection H as <-.
  exists (obj s), rate. auto.
Qed.

Lemma main_listing (args : Namespace) (w : World) (effs : list effect) :
  args_baud_rates args = true ->
  main args w = Some effs ->
  forall e, In e effs -> exists text, e = Stdout text.
Proof.
  intros Hb. unfold main. rewrite Hb. intros H.
  assert (E : [Stdout ("Supported baud rates:" ++ nl)]
              ++ map (fun rate => Stdout (rate ++ nl ++ nl)) BAUDRATES
              ++ [Stdout nl] = effs) by congruence.
  clear H. subst effs.
  intros e He. apply in_app_or in He. destruct He as [[<-|[]]|He];
    [eexists; reflexivity|].
  apply in_app_or in He. destruct He as [He|[<-|[]]];
    [|eexists; reflexivity].
  apply in_map_iff in He. destruct He as [r [<- _]]. eexists; reflexivity.
Qed.

(** Case analysis of a membership in the effects of a session. *)
Ltac in_effects H :=
  cbn [app In] in H;
  repeat (destruct H as [H|H]);
  try discriminate H; try contradiction.

(** Where an element of a list written out sits. *)
Lemma cons_split (A : Type) (x y : A) (l before later : list A) :
  x :: l = before ++ y :: later ->
  (before = [] /\ y = x /\ later = l)
  \/ exists before', before = x :: before' /\ l = before' ++ y :: later.
Proof.
  destruct before as [|b before']; cbn [app]; intros H; injection H as E1 E2.
  - left. auto.
  - right. exists before'. subst b. auto.
Qed.

(** Finds the element [y] of [H : x1 :: ... :: xn :: [] = before ++ y :: later]. *)
Ltac element_at H :=
  repeat match type of H with
  | _ :: _ = _ ++ _ :: _ =>
      apply cons_split in H;
      destruct H as [[-> [H ->]]|[? [-> H]]]; [try discriminate H|]
  | [] = _ ++ _ :: _ => destruct (app_cons_not_nil _ _ _ H)
  end.

(** X13. [main] launches minicom only after the configuration was
    written without error. In the effects of [main], in their order:
    wherever [subprocess.call] stands, its arguments are [minicom] and a
    non-empty name; before it stands the successful write of
    [/etc/minicom/minirc.<name>], whose text is the configuration for the
    port of the command line and the rate printed as detected; that print
    stands before the write; and everything else before the launch is a
    [print] or a line read from standard input. *)
Theorem X13_minicom_launched_only_after_save :
  forall args w effs before argv raised later,
    main args w = Some effs ->
    effs = before ++ Spawn argv raised :: later ->
    exists n rate printed between,
      argv = ["minicom"; n]
      /\ n <> EmptyString
      /\ raised = minicom w n
      /\ before
         = printed
           ++ FileWrite ("/etc/minicom/minirc." ++ n)%string
                (minicom_config (args_port args) rate) None
           :: between
      /\ In (Stdout (nl ++ "Detected baudrate: " ++ rate ++ nl)) printed
      /\ (forall e, In e (printed ++ between) ->
            (exists text, e = Stdout text) \/ (exists line, e = Stdin line)).
Proof.
  intros args w effs before argv raised later Hmain Heq.
  destruct (args_baud_rates args) eqn:Hb.
  { assert (Hin : In (Spawn argv raised) effs)
      by (rewrite Heq; apply in_elt).
    destruct (main_listing args w effs Hb Hmain _ Hin) as [text Ht].
    discriminate Ht. }
  destruct (main_session args w effs Hb Hmain) as [baud [rate [Hr [Hp E]]]].
  rewrite E in Heq. clear E Hmain.
  rewrite (save_and_run_cases _ _ _ _ rate Hr), Hp in Heq.
  set (second := fst (readline
                        match args_name args with
                        | None => snd (readline (stdin_lines w))
                        | Some _ => stdin_lines w
                        end)) in *.
  set (yes := if match args_name args with Some _ => true | None => false end
              then true
              else String.eqb (strip second) EmptyString
                   || startswith (lower (strip second)) "y") in *.
  clearbody yes second.
  destruct (match args_name args with
            | None => strip (fst (readline (stdin_lines w)))
            | Some n => n
            end) as [|c n] eqn:En.
  { destruct (args_name args); cbn [app] in Heq; element_at Heq. }
  destruct (fs w _ _) eqn:Ef.
  { destruct (args_name args); cbn [app] in Heq; element_at Heq. }
  destruct yes;
    [|destruct (args_name args); cbn [app] in Heq; element_at Heq].
  exists (String c n), rate.
  destruct (args_name args); destruct (minicom w (String c n)) eqn:Em;
    cbn [app] in Heq; element_at Heq; injection Heq as -> ->;
    first [ refine (ex_intro _ [_; _] (ex_intro _ [] _));
            split; [reflexivity|]; split; [discriminate|];
            split; [reflexivity|]; split; [reflexivity|]
          | refine (ex_intro _ [_; _; _; _; _] (ex_intro _ [_; _; _] _));
            split; [reflexivity|]; split; [discriminate|];
            split; [reflexivity|]; split; [reflexivity|] ];
    (split; [cbn [In]; auto|]);
    intros e He; cbn [app In] in He;
    repeat (destruct He as [<-|He]; [eauto|]); contradiction.
Qed.

Lemma X13_minicom_launched_only_after_save_witness :
  exists effs,
    main (mkNamespace "/dev/ttyUSB0" 25 None false false true)
      (mkWorld (Key interrupt_key :: reading (PyBytes []) [1; 2; 3; 4; 5; 6])
         [("router" ++ nl)%string; ("y" ++ nl)%string]
         (fun _ _ => None) (fun _ => None)) = Some effs
    /\ exists n rate printed between,
         ["minicom"; "router"] = ["minicom"; n]
         /\ n <> EmptyString
         /\ None = (fun _ : string => @None string) n
         /\ firstn 9 effs
            = printed
              ++ FileWrite ("/etc/minicom/minirc." ++ n)%string
                   (minicom_config "/dev/ttyUSB0" rate) None
              :: between
         /\ In (Stdout (nl ++ "Detected baudrate: " ++ rate ++ nl)) printed
         /\ (forall e, In e (printed ++ between) ->
               (exists text, e = Stdout text)
               \/ (exists line, e = Stdin line)).
Proof.
  eexists. split; [vm_compute; reflexivity|].
  match goal with |- context [firstn 9 ?effs] =>
    apply (X13_minicom_launched_only_after_save
             (mkNamespace "/dev/ttyUSB0" 25 None false false true)
             (mkWorld
                (Key interrupt_key :: reading (PyBytes []) [1; 2; 3; 4; 5; 6])
                [("router" ++ nl)%string; ("y" ++ nl)%string]
                (fun _ _ => None) (fun _ => None))
             effs (firstn 9 effs) ["minicom"; "router"] None (skipn 10 effs))
  end.
  - vm_compute. reflexivity.
  - vm_compute. reflexivity.
Defined.

Lemma config_starts_with_hash (p r : string) :
  exists rest,
    (minicom_config p r ++ nl)%string = String "#" rest.
Proof. unfold minicom_config, hashes. cbn [append]. eexists. reflexivity. Qed.

(** X14. In every session that got past [Detect], the configuration text
    is printed to standard output exactly when no file was written
    successfully: when the name is empty or the write raised. *)
Theorem X14_config_printed_iff_not_saved :
  forall args w effs,
    main args w = Some effs ->
    args_baud_rates args = false ->
    exists rate,
      In (Stdout (nl ++ "Detected baudrate: " ++ rate ++ nl)) effs
      /\ (In (Stdout (minicom_config (args_port args) rate ++ nl)) effs
          <-> ~ exists path content,
                  In (FileWrite path content None) effs).
Proof.
  intros args w effs Hmain Hb.
  destruct (main_session args w effs Hb Hmain) as [baud [rate [Hr [Hp ->]]]].
  exists rate. split; [cbn [app In]; auto|].
  rewrite (save_and_run_cases _ _ _ _ rate Hr), Hp.
  destruct (config_starts_with_hash (args_port args) rate) as [rest Hc].
  rewrite Hc.
  set (second := fst (readline
                        match args_name args with
                        | None => snd (readline (stdin_lines w))
                        | Some _ => stdin_lines w
                        end)).
  set (yes := if match args_name args with Some _ => true | None => false end
              then true
              else String.eqb (strip second) EmptyString
                   || startswith (lower (strip second)) "y").
  clearbody yes second.
  destruct (match args_name args with
            | None => strip (fst (readline (stdin_lines w)))
            | Some n => n
            end) as [|c n] eqn:En.
  { split.
    - intros _ [path [content H]]. destruct (args_name args); in_effects H.
    - intros _. destruct (args_name args); cbn [app In]; auto 10. }
  destruct (fs w _ _) eqn:Ef.
  { split.
    - intros _ [path [content H]]. destruct (args_name args); in_effects H.
    - intros _. destruct (args_name args); cbn [app In]; auto 10. }
  split.
  - intros H. exfalso.
    destruct (args_name args); destruct yes;
      destruct (minicom w (String c n)); in_effects H.
  - intros H. exfalso. apply H. do 2 eexists.
    destruct (args_name args); cbn [app In]; auto 10.
Qed.

Lemma X14_config_printed_iff_not_saved_witness :
  exists effs,
    main (mkNamespace "/dev/ttyUSB0" 25 None false false true)
      (mkWorld (Key interrupt_key :: reading (PyBytes []) [1; 2; 3; 4; 5; 6])
         [("router" ++ nl)%string]
         (fun _ _ => Some "Permission denied") (fun _ => None)) = Some effs
    /\ exists rate,
         In (Stdout (nl ++ "Detected baudrate: " ++ rate ++ nl)) effs
         /\ (In (Stdout (minicom_config "/dev/ttyUSB0" rate ++ nl)) effs
             <-> ~ exists path content,
                     In (FileWrite path content None) effs).
Proof.
  eexists. split; [vm_compute; reflexivity|].
  apply (X14_config_printed_iff_not_saved
           (mkNamespace "/dev/ttyUSB0" 25 None false false true)
           (mkWorld
              (Key interrupt_key :: reading (PyBytes []) [1; 2; 3; 4; 5; 6])
              [("router" ++ nl)%string]
              (fun _ _ => Some "Permission denied") (fun _ => None))).
  - vm_compute. reflexivity.
  - reflexivity.
Defined.

Lemma lower_char_y (c : ascii) :
  lower_char c = "y"%char <-> c = "y"%char \/ c = "Y"%char.
Proof.
  split.
  - destruct c as [[] [] [] [] [] [] [] []]; cbv; intros H;
      first [left; reflexivity | right; reflexivity | discriminate H].
  - intros [-> | ->]; reflexivity.
Qed.

(** The test of line 310. *)
Lemma yes_answer (yn : string) :
  String.eqb yn EmptyString || startswith (lower yn) "y" = true
  <-> yn = EmptyString
      \/ exists rest, yn = String "y" rest \/ yn = String "Y" rest.
Proof.
  destruct yn as [|c rest].
  - cbn. split; [left; reflexivity | reflexivity].
  - cbn [String.eqb lower orb]. unfold startswith. cbn [prefix].
    destruct (ascii_dec "y" (lower_char c)) as [E|E].
    + symmetry in E. apply lower_char_y in E.
      split; [intros _; right; exists rest | now destruct rest].
      destruct E as [-> | ->]; auto.
    + split; [discriminate|]. intros [H|[r [H|H]]]; [discriminate| |];
        injection H as -> _; exfalso; apply E; reflexivity.
Qed.

(** X15. When the name was asked for and the file was written, minicom
    is launched exactly when the answer to the question, stripped of
    white space, is empty or begins with [y] or [Y]: an empty line and
    the end of standard input count as yes, every other answer as no. *)
Theorem X15_answer_decides_launch :
  forall args w effs path content,
    main args w = Some effs ->
    args_name args = None ->
    In (FileWrite path content None) effs ->
    ((exists argv raised, In (Spawn argv raised) effs)
     <-> strip (fst (readline (snd (readline (stdin_lines w))))) = EmptyString
         \/ exists rest,
              strip (fst (readline (snd (readline (stdin_lines w)))))
              = String "y" rest
              \/ strip (fst (readline (snd (readline (stdin_lines w)))))
                 = String "Y" rest).
Proof.
  intros args w effs path content Hmain Hn Hsaved.
  destruct (args_baud_rates args) eqn:Hb.
  { destruct (main_listing args w effs Hb Hmain _ Hsaved) as [text Ht].
    discriminate Ht. }
  destruct (main_session args w effs Hb Hmain) as [baud [rate [Hr [Hp ->]]]].
  rewrite (save_and_run_cases _ _ _ _ rate Hr), Hn in *.
  rewrite <- yes_answer.
  set (yn := strip (fst (readline (snd (readline (stdin_lines w)))))) in *.
  destruct (strip (fst (readline (stdin_lines w)))) as [|c n];
    [in_effects Hsaved|].
  destruct (fs w _ _); [in_effects Hsaved|].
  destruct (String.eqb yn EmptyString || startswith (lower yn) "y").
  - split; [reflexivity|]. intros _. do 2 eexists.
    cbn [app In]. do 9 right. left. reflexivity.
  - split; [|discriminate]. intros [argv [raised H]]. in_effects H.
Qed.

Lemma X15_answer_decides_launch_witness :
  exists effs,
    main (mkNamespace "/dev/ttyUSB0" 25 None false false true)
      (mkWorld (Key interrupt_key :: reading (PyBytes []) [1; 2; 3; 4; 5; 6])
         [("router" ++ nl)%string; ("no" ++ nl)%string]
         (fun _ _ => None) (fun _ => None)) = Some effs
    /\ ((exists argv raised, In (Spawn argv raised) effs)
        <-> strip (fst (readline (snd (readline
                                         [("router" ++ nl)%string;
                                          ("no" ++ nl)%string]))))
            = EmptyString
            \/ exists rest,
                 strip (fst (readline (snd (readline
                                              [("router" ++ nl)%string;
                                               ("no" ++ nl)%string]))))
                 = String "y" rest
                 \/ strip (fst (readline (snd (readline
                                                 [("router" ++ nl)%string;
                                                  ("no" ++ nl)%string]))))
                    = String "Y" rest).
Proof.
  eexists. split; [vm_compute; reflexivity|].
  apply (X15_answer_decides_launch
           (mkNamespace "/dev/ttyUSB0" 25 None false false true)
           (mkWorld
              (Key interrupt_key :: reading (PyBytes []) [1; 2; 3; 4; 5; 6])
              [("router" ++ nl)%string; ("no" ++ nl)%string]
              (fun _ _ => None) (fun _ => None))
           _ "/etc/minicom/minirc.router"
           (minicom_config "/dev/ttyUSB0" "3686400")).
  - vm_compute. reflexivity.
  - reflexivity.
  - vm_compute. repeat (first [left; reflexivity | right]).
Defined.

(** X16. A name given with [-n] puts [Detect] in automatic mode whether
    or not [-a] is given, so no key has any effect, and nothing is read
    from standard input: the session is the one with [-a], the keys left
    out and standard input empty. *)
Theorem X16_name_option_implies_automatic :
  forall p c n a q w,
    main (mkNamespace p c (Some n) a false q) w
    = main (mkNamespace p c (Some n) true false q)
        (mkWorld (main_only (schedule w)) [] (fs w) (minicom w)).
Proof.
  intros p c n a q w. rewrite !main_unfold by reflexivity.
  cbn [args_port args_count args_name args_auto args_quiet schedule].
  rewrite !after_eq.
  rewrite <- (run_without_listener (schedule w)) by reflexivity.
  destruct (pc (run (schedule w) _)) as [|byte| | | |how|how [| |rate]|];
    reflexivity.
Qed.

Lemma only_bytes_seen_run (evs : list event) (s : state) :
  thread (obj s) = false ->
  Forall bytes_read evs ->
  only_bytes_seen s -> only_bytes_seen (run evs s).
Proof.
  revert s. induction evs as [|e evs IH]; intros s Ht Hall H; [exact H|].
  inversion Hall as [|e' evs' He Hevs]; subst.
  cbn [run fold_left]. destruct e as [now rd|c]; cbn [step].
  - destruct He as [b ->]. apply IH; [|exact Hevs|].
    + now rewrite (proj1 (Detect_step_shared now (PyBytes b) s)).
    + now apply only_bytes_seen_step.
  - rewrite HandleKeypress_step_idle by (now left). now apply IH.
Qed.

(** X17. With automatic mode on the command line ([-a], or a name given
    with [-n]) and a channel whose reads return [bytes] objects, [main]
    never gets past [Detect]: however long the run and whatever the
    device sends, [Detect] has not returned, so nothing is saved and
    minicom is not launched. *)
Theorem X17_automatic_session_never_completes :
  forall args w,
    args_baud_rates args = false ->
    args_auto args = true \/ args_name args <> None ->
    Forall bytes_read (schedule w) ->
    main args w = None.
Proof.
  intros args w Hb Hauto Hall. rewrite (main_unfold args w Hb).
  assert (Ha : match args_name args with
               | Some _ => true
               | None => args_auto args
               end = true).
  { destruct (args_name args); [reflexivity|].
    destruct Hauto as [H|H]; [exact H | congruence]. }
  rewrite Ha.
  destruct (after_Inv (args_port args) (args_count args) READ_TIMEOUT
              (args_name args) true (args_quiet args) (schedule w))
    as [s [E [HI [Hs _]]]].
  rewrite E. rewrite after_eq in E. injection E as E.
  assert (Hb' : only_bytes_seen s).
  { rewrite <- E. apply only_bytes_seen_run; [reflexivity | exact Hall|].
    split; [repeat split | exact I]. }
  destruct Hb' as [_ Hp'].
  pose proof (inv_pc s HI) as Hp. unfold pc_ok in Hp.
  destruct (pc s) as [|byte| | | |how|[|] [| |rate]|]; try reflexivity;
    try contradiction.
  destruct Hp as [Hc _]. pose proof (inv_ctlc s HI Hc). congruence.
Qed.

Lemma X17_automatic_session_never_completes_witness :
  main (mkNamespace "/dev/ttyUSB0" 25 (Some "router") false false true)
    (mkWorld
       (Key interrupt_key
        :: reading (PyBytes [x48]) [1; 2; 3; 4; 5; 6; 7; 8; 9; 10])
       [] (fun _ _ => None) (fun _ => None)) = None.
Proof.
  apply X17_automatic_session_never_completes.
  - reflexivity.
  - right. discriminate.
  - repeat constructor; eexists; reflexivity.
Defined.
